(** * Verification of the video streaming path of MoviesForUs ([src/app.py])

    Shallow embedding of [validate_video_file], [safe_convert_video],
    [convert_video_to_mp4] and the [/stream/<filename>] route [stream],
    together with the Werkzeug response objects and the Python string,
    integer and file primitives they rely on; then the rest of the
    application that the streaming path depends on or shares data with:
    the extension checks [allowed_file] and [is_convertible_video], the
    start-up configuration ([get_database_uri], [configure_upload_folders]),
    the [register], [login] and [delete_movie] routes, the thumbnail step of
    [upload] and [serve_thumbnail].  ([edit_movie] is not modelled: its
    [continue] outside a loop is a [SyntaxError], so [app.py] does not
    compile as written.) *)

From Stdlib Require Import ZArith QArith List String Ascii Bool Lia.
Import ListNotations.

Local Open Scope string_scope.
Local Open Scope Z_scope.

(* ================================================================= *)
(** ** Decimal digits: Python's [str(int)] and [int(<\d+ match>)] *)

Definition is_digit (c : ascii) : bool :=
  (48 <=? N_of_ascii c)%N && (N_of_ascii c <=? 57)%N.

Definition digit_val (c : ascii) : N := (N_of_ascii c - 48)%N.

Definition digit_char (d : N) : ascii := ascii_of_N (48 + d).

(** [int(s)] on a string of ASCII digits (the groups of [\d+] / [\d*]). *)
Fixpoint parse_digits_acc (acc : N) (s : string) : N :=
  match s with
  | EmptyString => acc
  | String c s' => parse_digits_acc (10 * acc + digit_val c)%N s'
  end.

Definition py_int (s : string) : Z := Z.of_N (parse_digits_acc 0 s).

Fixpoint show_N_fuel (fuel : nat) (n : N) : string :=
  match fuel with
  | O => EmptyString
  | S f =>
      if (n <? 10)%N then String (digit_char n) EmptyString
      else (show_N_fuel f (n / 10) ++ String (digit_char (n mod 10)) EmptyString)%string
  end.

(** Decimal rendering of a natural number; [log2 n + 1] bits bound the
    number of decimal digits. *)
Definition show_N (n : N) : string := show_N_fuel (S (N.to_nat (N.log2 n))) n.

(** [str(z)] for a Python int. *)
Definition py_str_int (z : Z) : string :=
  if z <? 0 then String "-"%char (show_N (Z.to_N (- z))) else show_N (Z.to_N z).

Fixpoint all_digits (s : string) : bool :=
  match s with
  | EmptyString => true
  | String c s' => is_digit c && all_digits s'
  end.

(** Round-half-even of [n / d] (d > 0), as Python's fixed-point formatting
    rounds an exact value. *)
Definition round_half_even (n d : Z) : Z :=
  let q := n / d in
  let r := n mod d in
  if 2 * r <? d then q
  else if d <? 2 * r then q + 1
  else if Z.even q then q else q + 1.

(** [f"{x:.2f}"], over the exact rational value of the float. *)
Definition fmt_2f (x : Q) : string :=
  let r := round_half_even (Qnum x * 100) (Zpos (Qden x)) in
  let a := Z.abs r in
  let sign := if r <? 0 then "-"%string else EmptyString in
  (sign ++ show_N (Z.to_N (a / 100)) ++ "."
   ++ String (digit_char (Z.to_N ((a mod 100) / 10)))
        (String (digit_char (Z.to_N (a mod 10))) EmptyString))%string.

(* ================================================================= *)
(** ** Python's [re.search] with the pattern of [stream]:
    two groups, [\d+] then a ['-'] then [\d*], matched leftmost *)

(** Greedy [\d*] at the current position: the digits and the rest. *)
Fixpoint take_digits (s : string) : string * string :=
  match s with
  | EmptyString => (EmptyString, EmptyString)
  | String c s' =>
      if is_digit c then let (d, r) := take_digits s' in (String c d, r)
      else (EmptyString, s)
  end.

(** An anchored match of the pattern.  Backtracking into [\d+] can never
    help: a shorter digit run is followed by a digit, not by ['-']. *)
Definition match_at (s : string) : option (string * string) :=
  let (g1, r) := take_digits s in
  match g1 with
  | EmptyString => None
  | _ =>
      match r with
      | String c r' =>
          if Ascii.eqb c "-"%char then Some (g1, fst (take_digits r')) else None
      | EmptyString => None
      end
  end.

(** The leftmost match, as [re.search]; [None] is Python's [None]. *)
Fixpoint re_search (s : string) : option (string * string) :=
  match match_at s with
  | Some m => Some m
  | None =>
      match s with
      | EmptyString => None
      | String _ s' => re_search s'
      end
  end.

(* ================================================================= *)
(** ** Files: [open(path, 'rb')], [seek], [read] *)

(** A stored file: its size ([os.path.getsize]) and its byte at each
    offset in [0, size). *)
Record file := mkFile { fsize : N; fbyte : Z -> Byte.byte }.

Fixpoint zrange_from (a : Z) (k : nat) : list Z :=
  match k with
  | O => []
  | S k' => a :: zrange_from (a + 1) k'
  end.

(** Bytes at offsets [a, b) (none when [b <= a]). *)
Definition slice (f : file) (a b : Z) : list Byte.byte :=
  map (fbyte f) (zrange_from a (Z.to_nat (b - a))).

(** The bytes [f.read(n)] returns at position [pos] once it succeeds:
    [n = -1] reads to end of file, otherwise at most [n] bytes; reading at
    or past the end yields [b'']. *)
Definition read_bytes (f : file) (pos n : Z) : list Byte.byte :=
  let size := Z.of_N (fsize f) in
  if n =? -1 then slice f pos size else slice f pos (Z.min (pos + n) size).

(* ================================================================= *)
(** ** Python values and the result dicts of [validate_video_file] *)

Inductive pyval : Type :=
| VBool (b : bool)
| VInt (z : Z)
| VFloat (q : Q)
| VStr (s : string).

(** A dict literal, in insertion order. *)
Definition dict := list (string * pyval).

(** [d[k]]: [None] stands for the [KeyError]. *)
Fixpoint dict_get (d : dict) (k : string) : option pyval :=
  match d with
  | [] => None
  | (k', v) :: d' => if String.eqb k k' then Some v else dict_get d' k
  end.

(** [d.get(k, default)] *)
Definition dict_get_default (d : dict) (k : string) (default : pyval) : pyval :=
  match dict_get d k with Some v => v | None => default end.

Definition truthy (v : pyval) : bool :=
  match v with
  | VBool b => b
  | VInt z => negb (z =? 0)
  | VFloat q => negb (Qeq_bool q 0)
  | VStr s => negb (String.eqb s EmptyString)
  end.

Definition pyval_eqb (v w : pyval) : bool :=
  match v, w with
  | VBool a, VBool b => Bool.eqb a b
  | VInt a, VInt b => a =? b
  | VFloat a, VFloat b => Qeq_bool a b
  | VStr a, VStr b => String.eqb a b
  | VInt a, VFloat b | VFloat b, VInt a => Qeq_bool (inject_Z a) b
  | _, _ => false
  end.

Definition dquote : string := String (ascii_of_N 34) EmptyString.

(** [str(v)] as used in f-strings and header values.  Floats are rendered
    with two decimals here; no float reaches this function on the paths
    of [stream]. *)
Definition py_str (v : pyval) : string :=
  match v with
  | VBool true => "True"
  | VBool false => "False"
  | VInt z => py_str_int z
  | VFloat q => fmt_2f q
  | VStr s => s
  end.

(** [json.dumps(v)] on a scalar (floats as in [py_str]). *)
Definition json_dumps (v : pyval) : string :=
  match v with
  | VBool true => "true"
  | VBool false => "false"
  | VInt z => py_str_int z
  | VFloat q => fmt_2f q
  | VStr s => (dquote ++ s ++ dquote)%string
  end.

Definition Qltb (x y : Q) : bool := negb (Qle_bool y x).

(* ================================================================= *)
(** ** The environment: filesystem, moviepy, FFmpeg, configuration *)

(** What [VideoFileClip] reads from a video it could open. *)
Record clip := mkClip { duration : Q; width : Z; height : Z; fps : Q }.

Inductive probe_result : Type :=
| ProbeOk (c : clip)
| ProbeRaises (msg : string).

Record env := mkEnv {
  fs : string -> option file;          (* os.path.exists / getsize / open *)
  readable : string -> bool;           (* os.access(path, os.R_OK) *)
  video_clip : string -> probe_result; (* moviepy on a readable file *)
  ffmpeg_available : bool;             (* FFMPEG_AVAILABLE *)
  ffmpeg_run : list string -> bool;    (* subprocess.run(..., check=True) exits 0 *)
  temp_name : string;                  (* NamedTemporaryFile(...).name *)
  upload_folder : string;              (* app.config['UPLOAD_FOLDER'] *)
  secure_filename : string -> string;  (* werkzeug.utils.secure_filename *)
  can_alloc : Z -> bool                (* the host finds memory for an n-byte object *)
}.

(** [PY_SSIZE_T_MAX] and the largest [off_t], on a 64-bit host. *)
Definition PY_SSIZE_T_MAX : Z := 2 ^ 63 - 1.

Definition OFF_T_MAX : Z := 2 ^ 63 - 1.

(** [PyBytesObject_SIZE]: the header of a [bytes] object plus its final
    NUL byte. *)
Definition PyBytesObject_SIZE : Z := 33.

(** Buffers of up to 2 GiB, the largest file [validate_video_file]
    accepts, are taken to be always allocatable, so that a read within a
    stored file never fails for lack of memory; a larger one succeeds as
    the host's [can_alloc] says, or raises [MemoryError]. *)
Definition assured_buffer : Z := 2 * 1024 * 1024 * 1024.

Definition alloc_ok (e : env) (n : Z) : bool := (n <=? assured_buffer) || can_alloc e n.

(** Whether [f.read(n)] on a freshly opened or freshly sought
    [BufferedReader] returns: [n < -1] raises [ValueError]; [n = -1] reads
    to end of file; [n = 0] returns [b''] from the empty buffer; any other
    [n] first allocates the [n]-byte result, which raises [OverflowError]
    past [PY_SSIZE_T_MAX] (the argument conversion) or past
    [PY_SSIZE_T_MAX - PyBytesObject_SIZE] ([PyBytes_FromStringAndSize]),
    and [MemoryError] when the memory cannot be found. *)
Definition read_succeeds (e : env) (n : Z) : bool :=
  (-1 <=? n)
  && ((n <=? 0) || ((n <=? PY_SSIZE_T_MAX - PyBytesObject_SIZE) && alloc_ok e n)).

(** [f.read(n)]; [None] when it raises. *)
Definition file_read (e : env) (f : file) (pos n : Z) : option (list Byte.byte) :=
  if read_succeeds e n then Some (read_bytes f pos n) else None.

(** Whether [f.seek(pos)] returns: a negative position raises
    [ValueError], one past [OFF_T_MAX] raises [OverflowError]; seeking past
    the end of the file is allowed. *)
Definition seek_ok (pos : Z) : bool := (0 <=? pos) && (pos <=? OFF_T_MAX).

(** CPython's default limit on the digits [int(str)] converts
    ([sys.int_info.default_max_str_digits]); a longer digit string raises
    [ValueError]. *)
Definition max_str_digits : nat := 4300.

(** [VideoFileClip(file_path)]: opening a file without read permission
    raises before any metadata is read. *)
Definition open_clip (e : env) (p : string) : probe_result :=
  if readable e p then video_clip e p
  else ProbeRaises ("[Errno 13] Permission denied: '" ++ p ++ "'")%string.

(* ================================================================= *)
(** ** [validate_video_file] *)

Definition invalid (reason : string) : dict :=
  [("valid", VBool false); ("reason", VStr reason)].

Definition validate_video_file (e : env) (file_path : string) : dict :=
  match fs e file_path with
  | None => invalid "File does not exist"
  | Some f =>
      let max_file_size := 2 * 1024 * 1024 * 1024 in
      let file_size := Z.of_N (fsize f) in
      if max_file_size <? file_size then
        invalid ("File too large. Max size is 2GB. Current size: "
                 ++ fmt_2f (file_size # 1048576) ++ " MB")
      else
        match open_clip e file_path with
        | ProbeRaises msg => invalid ("Unable to process video: " ++ msg)
        | ProbeOk video =>
            let max_duration := 3 * 60 * 60 in
            if Qltb (inject_Z max_duration) (duration video) then
              invalid ("Video too long. Max duration is 3 hours. Current duration: "
                       ++ fmt_2f (duration video / inject_Z 60) ++ " minutes")
            else
              let w := width video in
              let h := height video in
              if (w <? 640) || (h <? 360) then
                invalid ("Low resolution. Minimum 640x360 required. Current: "
                         ++ py_str_int w ++ "x" ++ py_str_int h)
              else
                [("valid", VBool true); ("duration", VFloat (duration video));
                 ("width", VInt w); ("height", VInt h); ("fps", VFloat (fps video))]
        end
  end.

(* ================================================================= *)
(** ** [convert_video_to_mp4] and [safe_convert_video] *)

(** What a conversion method returns: a [str], another object (the
    [CompletedProcess] of [subprocess.run]), or an exception. *)
Inductive pyret : Type :=
| RStr (s : string)
| RObj.

Inductive mresult : Type :=
| MReturn (r : pyret)
| MRaise (msg : string).

Definition convert_video_to_mp4 (e : env) (input_path : string)
    (output_path : option string) : mresult :=
  if negb (ffmpeg_available e) then MReturn (RStr input_path)
  else
    let out := match output_path with Some o => o | None => temp_name e end in
    if ffmpeg_run e ["ffmpeg"; "-i"; input_path; "-c:v"; "libx264"; "-c:a"; "aac";
                     "-loglevel"; "error"; "-y"; out]%string
    then MReturn (RStr out)
    else MRaise "Video conversion failed".

(** The three lambdas of [conversion_methods], in order. *)
Definition conversion_methods (e : env) (file_path : string)
    (output_path : option string) : list (unit -> mresult) :=
  [ (fun _ => convert_video_to_mp4 e file_path output_path);
    (fun _ =>
       (* [output_path or (file_path + '.mp4')] *)
       let out := match output_path with
                  | Some o => if String.eqb o "" then (file_path ++ ".mp4")%string else o
                  | None => (file_path ++ ".mp4")%string end in
       if ffmpeg_run e ["ffmpeg"; "-i"; file_path; "-c:v"; "libx264"; "-preset";
                        "medium"; "-crf"; "23"; "-c:a"; "aac"; out]%string
       then MReturn RObj
       else MRaise "CalledProcessError");
    (fun _ => MReturn (RStr file_path)) ].

(** The [for method in conversion_methods] loop. *)
Fixpoint run_methods (file_path : string) (ms : list (unit -> mresult)) : string :=
  match ms with
  | [] => file_path
  | m :: ms' =>
      match m tt with
      | MReturn (RStr s) => s
      | MReturn RObj => file_path
      | MRaise _ => run_methods file_path ms'
      end
  end.

Definition safe_convert_video (e : env) (file_path : string)
    (output_path : option string) : string :=
  run_methods file_path (conversion_methods e file_path output_path).

(* ================================================================= *)
(** ** Werkzeug responses *)

Definition headers := list (string * string).

(** [headers[k] = v]: replaces the first entry named [k] and drops the
    others, or appends. *)
Fixpoint hs_set (k v : string) (hs : headers) : headers :=
  match hs with
  | [] => [(k, v)]
  | (k', v') :: t =>
      if String.eqb k k' then (k, v) :: filter (fun kv => negb (String.eqb (fst kv) k)) t
      else (k', v') :: hs_set k v t
  end.

(** [headers.add(k, v)] *)
Definition hs_add (k v : string) (hs : headers) : headers := app hs [(k, v)].

(** Actions registered with [response.call_on_close], run by the server
    once the response has been sent. *)
Inductive close_action : Type :=
| Unlink (path : string).

Record response := mkResponse {
  status : Z;
  resp_headers : headers;
  body : list (list Byte.byte);   (* the iterable the server sends, chunk by chunk *)
  on_close : list close_action
}.

(** [Response(data: bytes, status, content_type=ct, ...)]: the body is
    [[data]], and [set_data] sets [Content-Length] to [len(data)]. *)
Definition response_of_bytes (data : list Byte.byte) (st : Z) (ct : string)
    (hs : headers) : response :=
  mkResponse st
    (hs_set "Content-Length" (py_str_int (Z.of_nat (List.length data))) (hs_set "Content-Type" ct hs))
    [data] [].

(** [Response(iterable, status, content_type=ct, headers=hs)]: no
    automatic [Content-Length]. *)
Definition response_of_iter (chunks : list (list Byte.byte)) (st : Z) (ct : string)
    (hs : headers) : response :=
  mkResponse st (hs_set "Content-Type" ct hs) chunks [].

Definition add_header (k v : string) (r : response) : response :=
  mkResponse (status r) (hs_add k v (resp_headers r)) (body r) (on_close r).

Definition call_on_close (a : close_action) (r : response) : response :=
  mkResponse (status r) (resp_headers r) (body r) (app (on_close r) [a]).

(** What a view returns: [redirect(url_for('index'))] after a [flash], or
    a response. *)
Inductive outcome : Type :=
| Redirect (location : string) (flash_category : string) (flash_message : string)
| Respond (r : response).

Definition status_of (o : outcome) : Z :=
  match o with
  | Redirect _ _ _ => 302
  | Respond r => status r
  end.

(** The values of all headers named [k], in order. *)
Definition header_values (k : string) (hs : headers) : list string :=
  map snd (filter (fun kv => String.eqb (fst kv) k) hs).

(* ================================================================= *)
(** ** The [/stream/<filename>] route *)

(** [url_for('index')] *)
Definition index_url : string := "/".

Definition unexpected_error : outcome :=
  Redirect index_url "danger" "An unexpected error occurred while streaming the video.".

(** [app.config['STREAM_CHUNK_SIZE']], set at start-up. *)
Definition app_config_STREAM_CHUNK_SIZE : option Z := Some (1024 * 1024 * 20).

Definition stream_chunk_size : Z :=
  match app_config_STREAM_CHUNK_SIZE with Some c => c | None => 1024 * 1024 * 10 end.

(** The [generate()] loop: read [chunk_size] bytes until [b''].  The fuel
    [size + 1] is never the binding limit (see [gen_chunks_concat]). *)
Fixpoint gen_chunks (e : env) (fuel : nat) (f : file) (pos chunk_size : Z)
    : list (list Byte.byte) :=
  match fuel with
  | O => []
  | S k =>
      match file_read e f pos chunk_size with
      | None => []            (* the generator raises: the body ends there *)
      | Some [] => []
      | Some data => data :: gen_chunks e k f (pos + Z.of_nat (List.length data)) chunk_size
      end
  end.

Definition generate (e : env) (f : file) (chunk_size : Z) : list (list Byte.byte) :=
  gen_chunks e (S (N.to_nat (fsize f))) f 0 chunk_size.

(** [os.path.join(a, b)] *)
Definition path_join (a b : string) : string :=
  if String.prefix "/" b then b
  else if String.eqb a "" then b
  else if String.eqb (substring (String.length a - 1) 1 a) "/" then a ++ b
  else a ++ "/" ++ b.

(** Lines 832-904 of [stream], once [converted_path] is known: the
    readability check, the ranged (206) branch and the full (200) branch. *)
Definition respond (e : env) (file_path converted_path safe_filename : string)
    (mime_type : pyval) (video_validation : dict) (range_header : option string)
    : outcome :=
  if negb (readable e converted_path) then
    Redirect index_url "danger" "Unable to read video file."
  else
    match fs e converted_path with
    | None => unexpected_error                       (* getsize raises *)
    | Some f =>
        let file_size := Z.of_N (fsize f) in
        let ranged :=
          match range_header with
          | Some rh => negb (String.eqb rh "")
          | None => false
          end in
        if ranged then
          match re_search (match range_header with Some rh => rh | None => "" end) with
          | None => unexpected_error                 (* None.groups() raises *)
          | Some (g1, g2) =>
              (* [int(groups[0])], [int(groups[1])] raise past the digit limit *)
              if (max_str_digits <? String.length g1)%nat
                 || (max_str_digits <? String.length g2)%nat then unexpected_error
              else
              let byte1 := if String.eqb g1 "" then 0 else py_int g1 in
              let byte2 := if String.eqb g2 "" then None else Some (py_int g2) in
              let length := match byte2 with
                            | Some b2 => b2 + 1 - byte1
                            | None => file_size - byte1
                            end in
              if negb (seek_ok byte1) then unexpected_error        (* f.seek raises *)
              else
              match file_read e f byte1 length with
              | None => unexpected_error                          (* f.read raises *)
              | Some data =>
                  let rv := response_of_bytes data 206 "video/mp4" [] in
                  let rv := add_header "Content-Range"
                              ("bytes " ++ py_str_int byte1 ++ "-"
                               ++ py_str_int (byte1 + length - 1) ++ "/" ++ py_str_int file_size) rv in
                  let rv := add_header "Accept-Ranges" "bytes" rv in
                  let rv := add_header "Content-Length" (py_str_int length) rv in
                  Respond rv
              end
          end
        else
          let response :=
            response_of_iter (generate e f stream_chunk_size) 200 "video/mp4"
              [("Content-Disposition", "inline; filename=" ++ dquote ++ safe_filename ++ dquote);
               ("Content-Length", py_str_int file_size);
               ("X-Video-Original-Type", py_str mime_type);
               ("X-Video-Metadata",
                  match dict_get video_validation "metadata" with
                  | Some m => json_dumps m
                  | None => "{}"
                  end);
               ("Accept-Ranges", "bytes")] in
          if negb (String.eqb converted_path file_path) then
            Respond (call_on_close (Unlink converted_path) response)
          else Respond response
    end.

(** [os.path.join(app.config['UPLOAD_FOLDER'], secure_filename(filename))] *)
Definition stream_file_path (e : env) (filename : string) : string :=
  path_join (upload_folder e) (secure_filename e filename).

(** [stream(filename)] with request header [Range] ([None] when absent),
    parameterised by the converter it calls. *)
Definition stream_with (convert : string -> string) (e : env) (filename : string)
    (range_header : option string) : outcome :=
  let safe_filename := secure_filename e filename in
  let file_path := stream_file_path e filename in
  match fs e file_path with
  | None => Redirect index_url "danger" "Video file not found."
  | Some _ =>
      let video_validation := validate_video_file e file_path in
      match dict_get video_validation "valid" with
      | None => unexpected_error                       (* KeyError *)
      | Some valid =>
          if negb (truthy valid) then
            Redirect index_url "danger"
              ("Video processing error: "
               ++ py_str (dict_get_default video_validation "reason" (VStr "Unknown error")))
          else
            let mime_type := dict_get_default video_validation "mime_type" (VStr "video/mp4") in
            let converted_path :=
              if negb (pyval_eqb mime_type (VStr "video/mp4")) then convert file_path
              else file_path in
            respond e file_path converted_path safe_filename mime_type video_validation
              range_header
      end
  end.

Definition stream (e : env) (filename : string) (range_header : option string) : outcome :=
  stream_with (fun p => safe_convert_video e p None) e filename range_header.

(** The validation step of [upload] (after the file is saved at
    [file_path]): an invalid file is deleted and a 400 JSON error is
    returned. *)
Inductive upload_step : Type :=
| UploadRejected (removed : string) (status : Z) (message : string)
| UploadContinues (video_validation : dict)
| UploadKeyError.

Definition upload_validate (e : env) (file_path : string) : upload_step :=
  let video_validation := validate_video_file e file_path in
  match dict_get video_validation "valid" with
  | None => UploadKeyError
  | Some valid =>
      if negb (truthy valid) then
        UploadRejected file_path 400
          (py_str (dict_get_default video_validation "reason" (VStr "Invalid video file")))
      else UploadContinues video_validation
  end.

(* ================================================================= *)
(** ** Python [str] methods on names and form fields

    Characters are the code points U+0000..U+00FF (Latin-1), which the
    8-bit [ascii] type covers exactly. *)

(** [c.lower()]: ASCII and Latin-1 capitals map to their small letter. *)
Definition ascii_lower (c : ascii) : ascii :=
  let n := N_of_ascii c in
  if (((65 <=? n) && (n <=? 90)) || ((192 <=? n) && (n <=? 222) && negb (n =? 215)))%N
  then ascii_of_N (n + 32)%N else c.

(** [s.lower()] *)
Fixpoint str_lower (s : string) : string :=
  match s with
  | EmptyString => EmptyString
  | String c s' => String (ascii_lower c) (str_lower s')
  end.

(** [c.isspace()] on Latin-1: [\t \n \v \f \r], [\x1c]-[\x1f], space,
    [\x85] and [\xa0]. *)
Definition py_isspace (c : ascii) : bool :=
  let n := N_of_ascii c in
  (((9 <=? n) && (n <=? 13)) || ((28 <=? n) && (n <=? 32)) || (n =? 133) || (n =? 160))%N.

Fixpoint lstrip (s : string) : string :=
  match s with
  | EmptyString => EmptyString
  | String c s' => if py_isspace c then lstrip s' else s
  end.

Fixpoint rstrip (s : string) : string :=
  match s with
  | EmptyString => EmptyString
  | String c s' =>
      let r := rstrip s' in
      if String.eqb r EmptyString && py_isspace c then EmptyString else String c r
  end.

(** [s.strip()] *)
Definition py_strip (s : string) : string := rstrip (lstrip s).

(** [c in s] for a single character. *)
Fixpoint str_contains (c : ascii) (s : string) : bool :=
  match s with
  | EmptyString => false
  | String d s' => Ascii.eqb c d || str_contains c s'
  end.

(** [s.rfind(c)]: the index of the last [c], or [-1]. *)
Fixpoint rfind (c : ascii) (s : string) : Z :=
  match s with
  | EmptyString => -1
  | String d s' =>
      let r := rfind c s' in
      if 0 <=? r then r + 1 else if Ascii.eqb c d then 0 else -1
  end.

(** [s.rsplit(c, 1)] when it has two parts: the text before and after the
    last [c]; [None] when [c] does not occur (a one-element list). *)
Fixpoint rsplit1 (c : ascii) (s : string) : option (string * string) :=
  match s with
  | EmptyString => None
  | String d s' =>
      match rsplit1 c s' with
      | Some (a, b) => Some (String d a, b)
      | None => if Ascii.eqb c d then Some (EmptyString, s') else None
      end
  end.

(** [p[i:]] and [p[:i]] for [0 <= i]. *)
Definition str_from (i : Z) (p : string) : string :=
  substring (Z.to_nat i) (String.length p - Z.to_nat i) p.

Definition str_upto (i : Z) (p : string) : string := substring 0 (Z.to_nat i) p.

(** [os.path.basename(p)] is [p[p.rfind('/') + 1:]]. *)
Definition basename (p : string) : string := str_from (rfind "/" p + 1) p.

(** The loop of [genericpath._splitext] that skips leading dots: does some
    index in [filenameIndex, filenameIndex + k) hold a character other
    than ['.']? *)
Fixpoint splitext_loop (p : string) (filenameIndex : nat) (k : nat) : bool :=
  match k with
  | O => false
  | S k' =>
      match String.get filenameIndex p with
      | Some c => if negb (Ascii.eqb c ".") then true else splitext_loop p (S filenameIndex) k'
      | None => splitext_loop p (S filenameIndex) k'
      end
  end.

(** [os.path.splitext(p)] (posixpath: separator ['/'], extension
    separator ['.']). *)
Definition splitext (p : string) : string * string :=
  let sepIndex := rfind "/" p in
  let dotIndex := rfind "." p in
  if sepIndex <? dotIndex then
    let filenameIndex := sepIndex + 1 in
    if splitext_loop p (Z.to_nat filenameIndex) (Z.to_nat (dotIndex - filenameIndex))
    then (str_upto dotIndex p, str_from dotIndex p)
    else (p, EmptyString)
  else (p, EmptyString).

Definition str_in (s : string) (l : list string) : bool := existsb (String.eqb s) l.

(* ================================================================= *)
(** ** [is_convertible_video] and [allowed_file] *)

Definition convertible_extensions : list string :=
  [".mkv"; ".avi"; ".mov"; ".webm"; ".flv"; ".wmv"; ".m4v"; ".mpg"; ".mpeg"; ".mp4"].

Definition is_convertible_video (filename : string) : bool :=
  let file_ext := str_lower (snd (splitext filename)) in
  str_in file_ext convertible_extensions.

Definition ALLOWED_EXTENSIONS : list string :=
  ["mp4"; "avi"; "mov"; "mkv"; "flv"; "wmv"; "webm"; "mpeg"; "mpg"; "m4v"; "divx"].

(** ['.' in filename and filename.rsplit('.', 1)[1].lower() in ...]; the
    [None] branch (an [IndexError]) is cut off by the first test. *)
Definition allowed_file (filename : string) : bool :=
  str_contains "." filename
  && match rsplit1 "." filename with
     | Some (_, ext) => str_in (str_lower ext) ALLOWED_EXTENSIONS
     | None => false
     end.

(* ================================================================= *)
(** ** Start-up configuration: the operating system seen by [app.py] *)

Record os_env := mkOsEnv {
  getenv : string -> option string;    (* os.getenv / os.environ.get *)
  root_path : string;                  (* app.root_path, the directory of app.py *)
  project_dir : string;                (* os.path.abspath(os.path.dirname(__file__)) *)
  cwd : string;                        (* os.getcwd() *)
  home : string;                       (* os.path.expanduser('~') *)
  makedirs_ok : string -> bool;        (* os.makedirs(d, exist_ok=True) does not raise *)
  path_exists : string -> bool;        (* os.path.exists *)
  writable : string -> bool            (* os.access(d, os.W_OK) *)
}.

(** [if not v] for [os.getenv(...)], which is [None] or a string. *)
Definition opt_truthy (o : option string) : bool :=
  match o with Some s => negb (String.eqb s EmptyString) | None => false end.

Definition opt_str (o : option string) : string :=
  match o with Some s => s | None => EmptyString end.

(** [get_database_uri]; [None] when [os.makedirs] raises. *)
Definition get_database_uri (o : os_env) : option string :=
  let database_url := getenv o "DATABASE_URL" in
  if opt_truthy database_url then database_url
  else
    let db_host := getenv o "AIVEN_DB_HOST" in
    let db_port := getenv o "AIVEN_DB_PORT" in
    let db_name := match getenv o "AIVEN_DB_NAME" with Some n => n | None => "defaultdb" end in
    let db_user := getenv o "AIVEN_DB_USER" in
    let db_password := getenv o "AIVEN_DB_PASSWORD" in
    if opt_truthy db_host && opt_truthy db_port && opt_truthy db_user && opt_truthy db_password then
      Some ("postgresql://" ++ opt_str db_user ++ ":" ++ opt_str db_password ++ "@"
            ++ opt_str db_host ++ ":" ++ opt_str db_port ++ "/" ++ db_name ++ "?sslmode=require")
    else
      let instance_path := path_join (root_path o) "instance" in
      if makedirs_ok o instance_path then Some ("sqlite:///" ++ path_join instance_path "app.db")
      else None.

Definition potential_base_dirs (o : os_env) : list string :=
  [ opt_str (getenv o "RENDER_EXTERNAL_STORAGE");
    "/opt/render/project/src/static/uploads";
    path_join (path_join (project_dir o) "static") "uploads";
    path_join (path_join (cwd o) "static") "uploads";
    path_join (home o) "movie_uploads";
    "/tmp/movie_uploads" ].

(** The [for base_dir in potential_base_dirs] loop of
    [configure_upload_folders]; an exception of [os.makedirs] moves on to
    the next directory. *)
Fixpoint first_upload_dirs (o : os_env) (ds : list string) : option (string * string) :=
  match ds with
  | [] => None
  | base_dir :: ds' =>
      if String.eqb base_dir EmptyString then first_upload_dirs o ds'
      else
        let movies_upload_dir := path_join base_dir "movies" in
        let thumbnails_upload_dir := path_join base_dir "thumbnails" in
        if makedirs_ok o movies_upload_dir && makedirs_ok o thumbnails_upload_dir then
          if path_exists o movies_upload_dir && path_exists o thumbnails_upload_dir
             && writable o movies_upload_dir && writable o thumbnails_upload_dir
          then Some (movies_upload_dir, thumbnails_upload_dir)
          else first_upload_dirs o ds'
        else first_upload_dirs o ds'
  end.

(** [configure_upload_folders]: the pair [(UPLOAD_FOLDER,
    THUMBNAIL_FOLDER)] it sets; [None] when the emergency [os.makedirs]
    raises. *)
Definition configure_upload_folders (o : os_env) : option (string * string) :=
  match first_upload_dirs o (potential_base_dirs o) with
  | Some r => Some r
  | None =>
      let fallback_base := "/tmp/movie_uploads" in
      let fallback_movies := path_join fallback_base "movies" in
      let fallback_thumbnails := path_join fallback_base "thumbnails" in
      if makedirs_ok o fallback_movies && makedirs_ok o fallback_thumbnails then
        Some (fallback_movies, fallback_thumbnails)
      else
        let emergency_upload := "/tmp/emergency_uploads" in
        if makedirs_ok o emergency_upload then Some (emergency_upload, emergency_upload)
        else None
  end.

(** A candidate base directory the loop of [configure_upload_folders]
    accepts: non-empty, both subdirectories created without an exception,
    and both existing and writable afterwards. *)
Definition usable_upload_base (o : os_env) (base_dir : string) : bool :=
  let movies_upload_dir := path_join base_dir "movies" in
  let thumbnails_upload_dir := path_join base_dir "thumbnails" in
  negb (String.eqb base_dir EmptyString)
  && (makedirs_ok o movies_upload_dir && makedirs_ok o thumbnails_upload_dir)
  && (path_exists o movies_upload_dir && path_exists o thumbnails_upload_dir
      && writable o movies_upload_dir && writable o thumbnails_upload_dir).

(** [app.config['MAX_CONTENT_LENGTH']]: Flask refuses larger request
    bodies with [RequestEntityTooLarge] before [upload] runs. *)
Definition app_config_MAX_CONTENT_LENGTH : Z := 1024 * 1024 * 1024.

(* ================================================================= *)
(** ** Accounts: [register] and [login] *)

(** [request.form], in order. *)
Definition form := list (string * string).

(** [request.form.get(k)] *)
Fixpoint form_get (f : form) (k : string) : option string :=
  match f with
  | [] => None
  | (k', v) :: f' => if String.eqb k k' then Some v else form_get f' k
  end.

Definition form_get_default (f : form) (k d : string) : string :=
  match form_get f k with Some v => v | None => d end.

(** [[a-zA-Z0-9_]] *)
Definition is_word_char (c : ascii) : bool :=
  let n := N_of_ascii c in
  (((97 <=? n) && (n <=? 122)) || ((65 <=? n) && (n <=? 90)) || ((48 <=? n) && (n <=? 57))
   || (n =? 95))%N.

(** The rest of [[a-zA-Z0-9_]+$] after the first character: more class
    characters, then the end or a final newline ([$] matches before it). *)
Fixpoint word_then_end (s : string) : bool :=
  match s with
  | EmptyString => true
  | String c s' =>
      if is_word_char c then word_then_end s'
      else Ascii.eqb c "010"%char && String.eqb s' EmptyString
  end.

(** [re.match(r'^[a-zA-Z0-9_]+$', s)] is not [None]. *)
Definition username_re_match (s : string) : bool :=
  match s with
  | EmptyString => false
  | String c s' => is_word_char c && word_then_end s'
  end.

(** A row of the [users] table. *)
Record user := mkUser { user_id : Z; user_username : string; user_password_hash : string }.

(** Flask-Bcrypt. *)
Record hasher := mkHasher {
  generate_password_hash : string -> string;
  check_password_hash : string -> string -> bool
}.

(** The database session: whether [commit] succeeds, and the message of
    the exception it raises otherwise. *)
Record db_session := mkDb { commit_ok : bool; db_error : string }.

Definition register_url : string := "/register".

Definition login_url : string := "/login".

(** [flash(msg)] without a category uses ["message"]. *)
Definition flash_default : string := "message".

(** Rows get the next integer key. *)
Definition next_user_id (users : list user) : Z :=
  fold_right (fun u m => Z.max (user_id u) m) 0 users + 1.

(** The inner [try] of [register]: the duplicate check and the insert. *)
Definition register_db (bc : hasher) (db : db_session) (users : list user)
    (username password : string) : outcome * list user :=
  match find (fun u => String.eqb (user_username u) username) users with
  | Some _ => (Redirect register_url flash_default "Username already exists", users)
  | None =>
      let new_user := mkUser (next_user_id users) username (generate_password_hash bc password) in
      if commit_ok db then
        (Redirect login_url flash_default "Registration successful. Please log in.",
         app users [new_user])
      else
        (Redirect register_url flash_default
           ("A database error occurred: " ++ db_error db ++ ". Please try again."), users)
  end.

(** [register] on a POST, with the [users] table before and after. *)
Definition register_post (bc : hasher) (db : db_session) (users : list user) (f : form)
    : outcome * list user :=
  let username := py_strip (form_get_default f "username" "") in
  let password := form_get_default f "password" "" in
  if String.eqb username EmptyString then
    (Redirect register_url flash_default "Username cannot be empty", users)
  else if Nat.ltb (String.length username) 3 then
    (Redirect register_url flash_default "Username must be at least 3 characters long", users)
  else if Nat.ltb (String.length password) 6 then
    (Redirect register_url flash_default "Password must be at least 6 characters long", users)
  else if negb (username_re_match username) then
    (Redirect register_url flash_default
       "Username can only contain letters, numbers, and underscores", users)
  else register_db bc db users username password.

(** [login] on a POST: the outcome and the id [login_user] records. *)
Definition login_post (bc : hasher) (users : list user) (f : form) : outcome * option Z :=
  let username := form_get f "username" in
  let password := form_get f "password" in
  if negb (opt_truthy username) || negb (opt_truthy password) then
    (Redirect login_url flash_default "Username and password are required", None)
  else
    match find (fun u => String.eqb (user_username u) (opt_str username)) users with
    | Some u =>
        if check_password_hash bc (user_password_hash u) (opt_str password) then
          (Redirect index_url flash_default "Login successful", Some (user_id u))
        else (Redirect login_url flash_default "Invalid username or password", None)
    | None => (Redirect login_url flash_default "Invalid username or password", None)
    end.

(* ================================================================= *)
(** ** [delete_movie] *)

(** A row of the [movies] table. *)
Record movie := mkMovie {
  movie_id : Z; movie_title : string; movie_filename : string;
  movie_thumbnail : option string; movie_language : string; movie_user_id : Z
}.

(** The [movies] table and the files on disk. *)
Record store := mkStore { movies : list movie; files : list string }.

(** [if os.path.exists(p): os.remove(p)]; [None] when [os.remove]
    raises. *)
Definition remove_if_exists (remove_ok : string -> bool) (p : string) (fs : list string)
    : option (list string) :=
  if existsb (String.eqb p) fs then
    if remove_ok p then Some (filter (fun q => negb (String.eqb q p)) fs) else None
  else Some fs.

(** [delete_movie(movie_id)] for the logged-in user [current_user_id].
    [Movie.query.get_or_404] raises [NotFound] inside the outer [try], so
    the outer handler answers a missing id.  An exception in the inner
    [try] rolls the session back (the row stays) but not the removals. *)
Definition delete_movie (upload_folder thumbnail_folder : string) (remove_ok : string -> bool)
    (db : db_session) (st : store) (current_user_id mid : Z) : outcome * store :=
  match find (fun m => movie_id m =? mid) (movies st) with
  | None => (Redirect index_url "danger" "An unexpected error occurred.", st)
  | Some movie =>
      if negb (movie_user_id movie =? current_user_id) then
        (Redirect index_url "danger" "You are not authorized to delete this movie.", st)
      else
        let failed fs :=
          (Redirect index_url "danger" "Failed to delete movie. Please try again.",
           mkStore (movies st) fs) in
        let movie_path := path_join upload_folder (movie_filename movie) in
        match remove_if_exists remove_ok movie_path (files st) with
        | None => failed (files st)
        | Some fs1 =>
            let thumb :=
              match movie_thumbnail movie with
              | Some t =>
                  if String.eqb t EmptyString then Some fs1
                  else remove_if_exists remove_ok (path_join thumbnail_folder t) fs1
              | None => Some fs1
              end in
            match thumb with
            | None => failed fs1
            | Some fs2 =>
                if commit_ok db then
                  (Redirect index_url "success" "Movie deleted successfully!",
                   mkStore (filter (fun m => negb (movie_id m =? mid)) (movies st)) fs2)
                else failed fs2
            end
        end
  end.

(* ================================================================= *)
(** ** Thumbnails *)

(** Lines 1388-1425 of [upload]: the [thumbnail] stored with the new
    movie, from what [generate_thumbnail] returned.  Any exception
    ([os.makedirs], [shutil.copy2]) leads to [None]; a failed removal of
    the temporary file is only logged. *)
Definition upload_thumbnail (o : os_env) (copy_ok : string -> bool)
    (thumbnail_path : option string) : option string :=
  match thumbnail_path with
  | None => None
  | Some tp =>
      if String.eqb tp EmptyString then None
      else
        let tp := if String.prefix "/" tp then tp else path_join (cwd o) tp in
        let thumbnail_filename := basename tp in
        let static_thumbnail_dir := path_join (path_join (root_path o) "static") "thumbnails" in
        if negb (makedirs_ok o static_thumbnail_dir) then None
        else
          let static_thumbnail_path := path_join static_thumbnail_dir thumbnail_filename in
          if path_exists o tp then
            if copy_ok tp then Some (basename static_thumbnail_path) else None
          else
            (* [thumbnail_filename = None], overwritten on the next line *)
            Some (basename static_thumbnail_path)
  end.

(** The [thumbnail_locations] list of [serve_thumbnail]; the folder is
    [app.config.get('THUMBNAIL_FOLDER', '')]. *)
Definition thumbnail_locations (o : os_env) (thumbnail_folder : option string) (filename : string)
    : list string :=
  [ path_join (path_join (path_join (root_path o) "static") "thumbnails") filename;
    path_join (opt_str thumbnail_folder) filename;
    path_join (path_join (root_path o) "static") filename ].

Inductive serve_result : Type :=
| SendFile (path : string) (mimetype : string)
| ServeRaises (exc : string).

(** [serve_thumbnail(filename)].  [send_from_directory] is not imported:
    calling it raises [NameError], in the [try] and again in its
    [except] handler, from which the exception escapes. *)
Definition serve_thumbnail (o : os_env) (thumbnail_folder : option string)
    (secure_filename : string -> string) (send_ok : string -> bool) (filename : string)
    : serve_result :=
  let filename := secure_filename filename in
  let thumbnail_path := find (path_exists o) (thumbnail_locations o thumbnail_folder filename) in
  if negb (opt_truthy thumbnail_path) then ServeRaises "NameError"
  else if send_ok (opt_str thumbnail_path) then SendFile (opt_str thumbnail_path) "image/jpeg"
  else ServeRaises "NameError".

(* ================================================================= *)
(** ** Statement helpers and concrete inputs *)

(** The [Range] header value [bytes=<start>-<end>] a client sends, the end
    being optional. *)
Definition range_header_value (start : Z) (end_ : option Z) : string :=
  "bytes=" ++ py_str_int start ++ "-"
  ++ match end_ with Some e => py_str_int e | None => EmptyString end.

(** The 206 response [stream] builds for a parsed range. *)
Definition range_response (f : file) (start : Z) (end_ : option Z) : response :=
  let file_size := Z.of_N (fsize f) in
  let length := match end_ with Some b2 => b2 + 1 - start | None => file_size - start end in
  add_header "Content-Length" (py_str_int length)
    (add_header "Accept-Ranges" "bytes"
       (add_header "Content-Range"
          ("bytes " ++ py_str_int start ++ "-" ++ py_str_int (start + length - 1)
           ++ "/" ++ py_str_int file_size)
          (response_of_bytes (read_bytes f start length) 206 "video/mp4" []))).

(** Header [k] is present, and every entry named [k] carries [v]. *)
Definition header_is (k v : string) (hs : headers) : Prop :=
  header_values k hs <> [] /\ Forall (fun x => x = v) (header_values k hs).

(** Concrete inputs: an upload folder [uploads] holding [movie.mkv]. *)
Definition sample_path : string := "uploads/movie.mkv".

Definition sample_env (size : N) (video : probe_result) : env :=
  mkEnv (fun p => if String.eqb p sample_path then Some (mkFile size (fun _ => Byte.x00)) else None)
    (fun _ => true) (fun _ => video) true (fun _ => false) "/tmp/converted_movie.mp4"
    "uploads" (fun s => s) (fun _ => false).

Definition hd_video : probe_result := ProbeOk (mkClip 5400 1920 1080 24).

Definition low_res_video : probe_result := ProbeOk (mkClip 60 320 240 24).

(** FFmpeg is installed; the first command (no [-preset]) fails, the
    second ([-preset medium]) succeeds. *)
Definition second_method_env : env :=
  mkEnv (fun p => if String.eqb p sample_path then Some (mkFile 10000 (fun _ => Byte.x00)) else None)
    (fun _ => true) (fun _ => hd_video) true (fun args => existsb (String.eqb "-preset") args)
    "/tmp/converted_movie.mp4" "uploads" (fun s => s) (fun _ => false).

Definition unreadable_video : probe_result := ProbeRaises "MoviePy error: failed to read the duration of file".

Definition large_env : env := sample_env 2147483649 hd_video.

(** The username pattern holds of every character. *)
Fixpoint all_word_chars (s : string) : bool :=
  match s with
  | EmptyString => true
  | String c s' => is_word_char c && all_word_chars s'
  end.

(** A login or registration form. *)
Definition credentials (u p : string) : form := [("username", u); ("password", p)].

(** The environment with variable [k] removed. *)
Definition unsetenv (o : os_env) (k : string) : os_env :=
  mkOsEnv (fun k' => if String.eqb k' k then None else getenv o k') (root_path o) (project_dir o)
    (cwd o) (home o) (makedirs_ok o) (path_exists o) (writable o).

(** A process environment: [os.environ] as a list of pairs; the app lives
    in [/srv/app]; every [os.makedirs] succeeds. *)
Definition sample_os (vars : list (string * string)) (exists_ok : bool) : os_env :=
  mkOsEnv (fun k => form_get vars k) "/srv/app" "/srv/app" "/srv/app" "/root"
    (fun _ => true) (fun _ => exists_ok) (fun _ => exists_ok).

(** Flask-Bcrypt replaced by the identity hash. *)
Definition plain_hasher : hasher := mkHasher (fun q => q) String.eqb.

Definition db_ok : db_session := mkDb true "".

Definition db_down : db_session := mkDb false "could not connect to server".

Definition sample_users : list user := [mkUser 1 "alice" "secret1"].

Definition intro_movie : movie := mkMovie 1 "Intro" "intro.mp4" (Some "intro.jpg") "English" 1.

Definition talk_movie : movie := mkMovie 2 "Talk" "talk.mp4" None "English" 2.

Definition sample_store : store :=
  mkStore [intro_movie; talk_movie] ["uploads/intro.mp4"; "thumbs/intro.jpg"; "uploads/talk.mp4"].

Definition sample_file : file := mkFile 10000 (fun _ => Byte.x00).

Definition aiven_vars (name : string) : list (string * string) :=
  [("AIVEN_DB_HOST", "db.example.com"); ("AIVEN_DB_PORT", "25060");
   ("AIVEN_DB_USER", "avnadmin"); ("AIVEN_DB_PASSWORD", "pw"); ("AIVEN_DB_NAME", name)].

(* ================================================================= *)
(** * Properties *)

(** ** Decimal rendering and parsing *)

Lemma parse_digits_app (acc : N) (s1 s2 : string) :
  parse_digits_acc acc (s1 ++ s2) = parse_digits_acc (parse_digits_acc acc s1) s2.
Proof. revert acc; induction s1 as [|c s1 IH]; intros acc; simpl; auto. Qed.

Lemma all_digits_app (s1 s2 : string) :
  all_digits (s1 ++ s2) = all_digits s1 && all_digits s2.
Proof. induction s1 as [|c s1 IH]; simpl; [reflexivity|]. rewrite IH. apply andb_assoc. Qed.

Lemma digit_char_ok (d : N) :
  (d < 10)%N -> is_digit (digit_char d) = true /\ digit_val (digit_char d) = d.
Proof.
  intros Hd. unfold is_digit, digit_val, digit_char.
  rewrite N_ascii_embedding by lia. split.
  - apply andb_true_intro; split; apply N.leb_le; lia.
  - lia.
Qed.

Lemma show_N_fuel_ok (f : nat) (n : N) :
  (n < 10 ^ N.of_nat f)%N -> f <> O ->
  parse_digits_acc 0 (show_N_fuel f n) = n /\ all_digits (show_N_fuel f n) = true
  /\ show_N_fuel f n <> EmptyString.
Proof.
  revert n; induction f as [|f IH]; intros n Hn Hf; [congruence|].
  simpl. destruct (N.ltb_spec n 10) as [Hlt|Hge].
  - destruct (digit_char_ok n Hlt) as [H1 H2]. simpl. rewrite H1, H2.
    split; [lia | split; [reflexivity | discriminate]].
  - rewrite Nnat.Nat2N.inj_succ, N.pow_succ_r' in Hn.
    assert (Hq : (n / 10 < 10 ^ N.of_nat f)%N) by (apply N.Div0.div_lt_upper_bound; lia).
    assert (Hf' : f <> O).
    { intros ->. simpl in Hq. assert (1 <= n / 10)%N by (apply N.div_le_lower_bound; lia). lia. }
    destruct (IH (n / 10)%N Hq Hf') as [P1 [P2 P3]].
    assert (Hm : (n mod 10 < 10)%N) by (apply N.mod_lt; lia).
    destruct (digit_char_ok _ Hm) as [D1 D2].
    rewrite parse_digits_app, P1, all_digits_app, P2. cbn [parse_digits_acc all_digits]. rewrite D1, D2.
    repeat split.
    + pose proof (N.div_mod n 10 ltac:(lia)). lia.
    + destruct (show_N_fuel f (n / 10)); discriminate.
Qed.

Lemma show_N_ok (n : N) :
  parse_digits_acc 0 (show_N n) = n /\ all_digits (show_N n) = true
  /\ show_N n <> EmptyString.
Proof.
  unfold show_N. apply show_N_fuel_ok; [|discriminate].
  rewrite Nnat.Nat2N.inj_succ, Nnat.N2Nat.id.
  destruct (N.eq_dec n 0) as [->|Hn]; [simpl; lia|].
  destruct (N.log2_spec n) as [_ H]; [lia|].
  eapply N.lt_le_trans; [exact H|]. apply N.pow_le_mono_l. lia.
Qed.

Lemma py_str_int_nonneg (z : Z) : 0 <= z -> py_str_int z = show_N (Z.to_N z).
Proof. intros H. unfold py_str_int. destruct (Z.ltb_spec z 0); [lia|reflexivity]. Qed.

Lemma py_int_show_N (n : N) : py_int (show_N n) = Z.of_N n.
Proof. unfold py_int. destruct (show_N_ok n) as [H _]. now rewrite H. Qed.

(** ** Regular expression match of a well-formed header *)

Lemma take_digits_app (d s : string) :
  all_digits d = true ->
  take_digits (d ++ s) = (d ++ fst (take_digits s), snd (take_digits s)).
Proof.
  induction d as [|c d IH]; intros H; simpl; [destruct (take_digits s); reflexivity|].
  apply andb_prop in H as [Hc Hd]. rewrite Hc, (IH Hd). reflexivity.
Qed.

Lemma take_digits_all (d : string) : all_digits d = true -> take_digits d = (d, EmptyString).
Proof.
  induction d as [|c d IH]; intros H; simpl; [reflexivity|].
  apply andb_prop in H as [Hc Hd]. rewrite Hc, (IH Hd). reflexivity.
Qed.

Lemma append_empty_r (s : string) : s ++ EmptyString = s.
Proof. induction s as [|c s IH]; simpl; congruence. Qed.

Lemma match_at_digits_dash (d t : string) :
  all_digits d = true -> d <> EmptyString ->
  match_at (d ++ String "-" t) = Some (d, fst (take_digits t)).
Proof.
  intros Hd Hne. unfold match_at. rewrite take_digits_app by exact Hd.
  cbn [take_digits fst snd]. rewrite append_empty_r.
  destruct d as [|c d']; [congruence|]. reflexivity.
Qed.

Lemma re_search_unfold (s : string) :
  re_search s = match match_at s with
                | Some m => Some m
                | None => match s with EmptyString => None | String _ s' => re_search s' end
                end.
Proof. destruct s; reflexivity. Qed.

Lemma re_search_range (start : Z) (end_ : option Z) :
  0 <= start -> (forall e, end_ = Some e -> 0 <= e) ->
  re_search (range_header_value start end_)
  = Some (py_str_int start, match end_ with Some e => py_str_int e | None => EmptyString end).
Proof.
  intros Hs He. unfold range_header_value.
  assert (Ht : forall t, t = match end_ with Some e => py_str_int e | None => EmptyString end ->
                    take_digits t = (t, EmptyString)).
  { intros t ->. apply take_digits_all. destruct end_ as [e|]; [|reflexivity].
    rewrite py_str_int_nonneg by (apply He; reflexivity). apply show_N_ok. }
  generalize (Ht _ eq_refl).
  generalize (match end_ with Some e => py_str_int e | None => EmptyString end). intros t Htd.
  rewrite py_str_int_nonneg by exact Hs.
  generalize (show_N_ok (Z.to_N start)). generalize (show_N (Z.to_N start)).
  intros d [_ [Hd Hne]].
  change ("bytes=" ++ d ++ "-" ++ t) with
    (String "b" (String "y" (String "t" (String "e" (String "s" (String "=" (d ++ String "-" t))))))).
  do 6 (cbn [re_search]; change (match_at (String _ _)) with (@None (string * string)) at 1; cbv iota).
  rewrite re_search_unfold, match_at_digits_dash by (assumption || discriminate).
  rewrite Htd. reflexivity.
Qed.

(** ** Byte slices *)

Lemma zrange_from_length (a : Z) (k : nat) : List.length (zrange_from a k) = k.
Proof. revert a; induction k; intros a; simpl; auto. Qed.

Lemma zrange_from_nth (a : Z) (k i : nat) :
  (i < k)%nat -> nth_error (zrange_from a k) i = Some (a + Z.of_nat i).
Proof.
  revert a i; induction k as [|k IH]; intros a i Hi; [lia|].
  destruct i as [|i]; simpl; [f_equal; lia|].
  rewrite IH by lia. f_equal; lia.
Qed.

Lemma zrange_from_add (a : Z) (k1 k2 : nat) :
  zrange_from a (k1 + k2) = app (zrange_from a k1) (zrange_from (a + Z.of_nat k1) k2).
Proof.
  revert a; induction k1 as [|k1 IH]; intros a; simpl.
  - now rewrite Z.add_0_r.
  - rewrite IH. do 3 f_equal. lia.
Qed.

Lemma slice_length (f : file) (a b : Z) : List.length (slice f a b) = Z.to_nat (b - a).
Proof. unfold slice. now rewrite length_map, zrange_from_length. Qed.

Lemma slice_nth (f : file) (a b k : Z) :
  0 <= k < b - a -> nth_error (slice f a b) (Z.to_nat k) = Some (fbyte f (a + k)).
Proof.
  intros Hk. unfold slice. rewrite nth_error_map, zrange_from_nth by lia.
  simpl. f_equal. f_equal. lia.
Qed.

Lemma slice_split (f : file) (a m b : Z) :
  a <= m <= b -> slice f a b = app (slice f a m) (slice f m b).
Proof.
  intros H. unfold slice.
  replace (Z.to_nat (b - a)) with (Z.to_nat (m - a) + Z.to_nat (b - m))%nat by lia.
  rewrite zrange_from_add, map_app. do 3 f_equal. lia.
Qed.

Lemma slice_empty (f : file) (a b : Z) : b <= a -> slice f a b = [].
Proof. intros H. unfold slice. replace (Z.to_nat (b - a)) with O by lia. reflexivity. Qed.

Lemma read_bytes_within (f : file) (pos n : Z) :
  0 <= n -> pos + n <= Z.of_N (fsize f) -> read_bytes f pos n = slice f pos (pos + n).
Proof.
  intros Hn Hle. unfold read_bytes. destruct (Z.eqb_spec n (-1)); [lia|].
  f_equal. lia.
Qed.


(** ** When [f.read] and [int] return *)

Lemma read_succeeds_assured (e : env) (n : Z) :
  -1 <= n <= assured_buffer -> read_succeeds e n = true.
Proof.
  unfold read_succeeds, alloc_ok, assured_buffer, PY_SSIZE_T_MAX, PyBytesObject_SIZE.
  intros Hn. destruct (Z.leb_spec (-1) n) as [H1|H1]; [|lia].
  destruct (Z.leb_spec n 0) as [H2|H2]; [reflexivity|].
  destruct (Z.leb_spec n (2 ^ 63 - 1 - 33)) as [H3|H3]; [|lia].
  destruct (Z.leb_spec n (2 * 1024 * 1024 * 1024)) as [H4|H4]; [reflexivity|lia].
Qed.

Lemma read_succeeds_bound (e : env) (n : Z) :
  read_succeeds e n = true -> -1 <= n <= PY_SSIZE_T_MAX - PyBytesObject_SIZE.
Proof.
  unfold read_succeeds. intros Hs.
  destruct (Z.leb_spec (-1) n) as [H1|H1]; [|discriminate]. cbn [andb] in Hs.
  destruct (Z.leb_spec n 0) as [H2|H2]; [unfold PY_SSIZE_T_MAX, PyBytesObject_SIZE; lia|].
  destruct (Z.leb_spec n (PY_SSIZE_T_MAX - PyBytesObject_SIZE)) as [H3|H3]; [lia|discriminate].
Qed.

Lemma read_succeeds_below (e : env) (n : Z) : n < -1 -> read_succeeds e n = false.
Proof. intros H. unfold read_succeeds. destruct (Z.leb_spec (-1) n); [lia|reflexivity]. Qed.

Lemma validate_valid_size (e : env) (p : string) (f : file) :
  fs e p = Some f ->
  dict_get (validate_video_file e p) "valid" = Some (VBool true) -> Z.of_N (fsize f) <= 2147483648.
Proof.
  intros Hf. unfold validate_video_file. rewrite Hf. cbv zeta.
  destruct (Z.ltb_spec (2 * 1024 * 1024 * 1024) (Z.of_N (fsize f))) as [Hgt|Hle]; [|lia].
  intros Hv. cbn in Hv. discriminate.
Qed.

Lemma string_length_app (s t : string) :
  String.length (s ++ t) = (String.length s + String.length t)%nat.
Proof. induction s as [|c s IH]; simpl; auto. Qed.

Lemma show_N_fuel_length (f : nat) (n : N) : (String.length (show_N_fuel f n) <= f)%nat.
Proof.
  revert n; induction f as [|f IH]; intros n; simpl; [lia|].
  destruct (n <? 10)%N; simpl; [lia|].
  rewrite string_length_app. simpl. specialize (IH (n / 10)%N). lia.
Qed.

Lemma py_str_int_digits (z : Z) :
  0 <= z < 2 ^ 64 -> (max_str_digits <? String.length (py_str_int z))%nat = false.
Proof.
  intros H. apply Nat.ltb_ge. rewrite py_str_int_nonneg by lia. unfold show_N, max_str_digits.
  eapply Nat.le_trans; [apply show_N_fuel_length|].
  destruct (Z.eq_dec z 0) as [->|Hz]; [simpl; lia|].
  assert (Hn : (Z.to_N z < 2 ^ 64)%N).
  { apply N2Z.inj_lt. rewrite N2Z.inj_pow, Z2N.id by lia. exact (proj2 H). }
  apply N.log2_lt_pow2 in Hn; [|lia]. lia.
Qed.

(** ** The validator *)

Ltac destruct_ifs :=
  repeat match goal with
         | |- context [match ?x with _ => _ end] => destruct x
         end.

Lemma validate_no_mime_type (e : env) (p : string) :
  dict_get (validate_video_file e p) "mime_type" = None.
Proof. unfold validate_video_file, invalid. destruct_ifs; reflexivity. Qed.

Lemma validate_no_metadata (e : env) (p : string) :
  dict_get (validate_video_file e p) "metadata" = None.
Proof. unfold validate_video_file, invalid. destruct_ifs; reflexivity. Qed.

Lemma validate_valid_bool (e : env) (p : string) :
  exists b, dict_get (validate_video_file e p) "valid" = Some (VBool b).
Proof. unfold validate_video_file, invalid. destruct_ifs; eexists; reflexivity. Qed.

Lemma validate_valid_readable (e : env) (p : string) :
  dict_get (validate_video_file e p) "valid" = Some (VBool true) -> readable e p = true.
Proof.
  unfold validate_video_file, invalid, open_clip.
  destruct (fs e p); [|discriminate].
  destruct (_ <? _); [discriminate|].
  destruct (readable e p); [reflexivity|discriminate].
Qed.

(** Past the existence and validation checks, [stream] serves the stored
    file itself under the default type [video/mp4]. *)

Lemma stream_with_valid (conv : string -> string) (e : env) (fn : string)
    (rh : option string) (f : file) :
  fs e (stream_file_path e fn) = Some f ->
  dict_get (validate_video_file e (stream_file_path e fn)) "valid" = Some (VBool true) ->
  stream_with conv e fn rh
  = respond e (stream_file_path e fn) (stream_file_path e fn) (secure_filename e fn)
      (VStr "video/mp4") (validate_video_file e (stream_file_path e fn)) rh.
Proof.
  intros Hf Hv. unfold stream_with. cbv zeta. rewrite Hf, Hv. cbn [truthy negb].
  unfold dict_get_default. rewrite validate_no_mime_type. reflexivity.
Qed.

(** ** The ranged branch *)

Lemma py_str_int_ok (z : Z) :
  0 <= z -> py_int (py_str_int z) = z /\ String.eqb (py_str_int z) EmptyString = false.
Proof.
  intros H. rewrite py_str_int_nonneg by exact H. split.
  - rewrite py_int_show_N. lia.
  - destruct (show_N_ok (Z.to_N z)) as [_ [_ Hne]].
    destruct (show_N (Z.to_N z)); [congruence|reflexivity].
Qed.

Lemma respond_ranged_cases (e : env) (fp cp sf : string) (mt : pyval) (v : dict) (f : file)
    (start : Z) (end_ : option Z) :
  readable e cp = true -> fs e cp = Some f -> 0 <= start ->
  (forall x, end_ = Some x -> 0 <= x) ->
  respond e fp cp sf mt v (Some (range_header_value start end_))
  = if (max_str_digits <? String.length (py_str_int start))%nat
       || (max_str_digits <? String.length
                               (match end_ with Some x => py_str_int x | None => EmptyString end))%nat
    then unexpected_error
    else if negb (seek_ok start) then unexpected_error
    else match file_read e f start
                 (match end_ with Some x => x + 1 - start | None => Z.of_N (fsize f) - start end) with
         | None => unexpected_error
         | Some _ => Respond (range_response f start end_)
         end.
Proof.
  intros Hr Hf Hs He. unfold respond. rewrite Hr, Hf. cbv zeta.
  change (String.eqb (range_header_value start end_) EmptyString) with false.
  cbn [negb]. rewrite re_search_range by assumption.
  destruct (py_str_int_ok start Hs) as [P1 P2].
  destruct end_ as [x|].
  - destruct (py_str_int_ok x (He x eq_refl)) as [Q1 Q2]. cbv iota beta.
    destruct (_ || _); [reflexivity|]. rewrite P2, P1, Q2, Q1.
    destruct (negb (seek_ok start)); [reflexivity|].
    unfold file_read. destruct (read_succeeds e _); reflexivity.
  - cbv iota beta. destruct (_ || _); [reflexivity|]. rewrite P2, P1.
    destruct (negb (seek_ok start)); [reflexivity|].
    unfold file_read. destruct (read_succeeds e _); reflexivity.
Qed.

Lemma respond_ranged (e : env) (fp cp sf : string) (mt : pyval) (v : dict) (f : file)
    (start : Z) (end_ : option Z) :
  readable e cp = true -> fs e cp = Some f -> 0 <= start <= OFF_T_MAX ->
  (forall x, end_ = Some x -> 0 <= x) ->
  read_succeeds e (match end_ with Some x => x + 1 - start | None => Z.of_N (fsize f) - start end)
  = true ->
  respond e fp cp sf mt v (Some (range_header_value start end_))
  = Respond (range_response f start end_).
Proof.
  intros Hr Hf Hs He Hrd. rewrite (respond_ranged_cases _ _ _ _ _ _ f) by (assumption || lia).
  pose proof (read_succeeds_bound e _ Hrd) as Hb.
  unfold OFF_T_MAX, PY_SSIZE_T_MAX, PyBytesObject_SIZE in *.
  rewrite py_str_int_digits by lia.
  replace ((max_str_digits <? String.length
              (match end_ with Some x => py_str_int x | None => EmptyString end))%nat) with false
    by (destruct end_ as [x|]; [symmetry; apply py_str_int_digits; specialize (He x eq_refl); lia
                              | reflexivity]).
  unfold seek_ok, OFF_T_MAX. destruct (Z.leb_spec 0 start); [|lia].
  destruct (Z.leb_spec start (2 ^ 63 - 1)); [|lia]. cbn [andb negb orb].
  unfold file_read. rewrite Hrd. reflexivity.
Qed.

Lemma respond_ranged_error (e : env) (fp cp sf : string) (mt : pyval) (v : dict) (f : file)
    (start : Z) (end_ : option Z) :
  readable e cp = true -> fs e cp = Some f -> 0 <= start ->
  (forall x, end_ = Some x -> 0 <= x) ->
  OFF_T_MAX < start
  \/ read_succeeds e (match end_ with Some x => x + 1 - start | None => Z.of_N (fsize f) - start end)
     = false ->
  respond e fp cp sf mt v (Some (range_header_value start end_)) = unexpected_error.
Proof.
  intros Hr Hf Hs He Hbad. rewrite (respond_ranged_cases _ _ _ _ _ _ f) by assumption.
  destruct (_ || _); [reflexivity|].
  destruct Hbad as [Hbig|Hrd].
  - unfold seek_ok. destruct (Z.leb_spec start OFF_T_MAX); [lia|].
    rewrite andb_false_r. reflexivity.
  - destruct (negb (seek_ok start)); [reflexivity|].
    unfold file_read. rewrite Hrd. reflexivity.
Qed.



(** C2, counterexample: an existing 10000-byte asset of resolution
    320x240 requested with [Range: bytes=0-999] is redirected (302), not
    served with 206. *)
Lemma stream_range_invalid_asset_redirects :
  status_of (stream (sample_env 10000 low_res_video) "movie.mkv" (Some "bytes=0-999")) = 302.
Proof. vm_compute. reflexivity. Qed.

(** C2, as amended: for an existing asset of size [S] that passes
    validation and [0 <= start <= end < S] (an omitted end standing for
    [S - 1]), [stream] answers 206 with exactly the bytes [start..end]
    ([end - start + 1] of them), every [Content-Length] equal to
    [end - start + 1] and [Content-Range: bytes start-end/S]. *)
Theorem stream_valid_range (e : env) (fn : string) (f : file) (start end_ : Z) (end_opt : option Z) :
  fs e (stream_file_path e fn) = Some f ->
  dict_get (validate_video_file e (stream_file_path e fn)) "valid" = Some (VBool true) ->
  0 <= start <= end_ -> end_ < Z.of_N (fsize f) ->
  end_opt = Some end_ \/ (end_opt = None /\ end_ = Z.of_N (fsize f) - 1) ->
  exists r, stream e fn (Some (range_header_value start end_opt)) = Respond r
  /\ status r = 206
  /\ List.concat (body r) = slice f start (end_ + 1)
  /\ Z.of_nat (List.length (List.concat (body r))) = end_ - start + 1
  /\ (forall k, 0 <= k <= end_ - start ->
        nth_error (List.concat (body r)) (Z.to_nat k) = Some (fbyte f (start + k)))
  /\ header_is "Content-Length" (py_str_int (end_ - start + 1)) (resp_headers r)
  /\ header_values "Content-Range" (resp_headers r)
     = ["bytes " ++ py_str_int start ++ "-" ++ py_str_int end_
        ++ "/" ++ py_str_int (Z.of_N (fsize f))].
Proof.
  intros Hf Hv Hse Hend Heo. unfold stream. rewrite (stream_with_valid _ _ _ _ f Hf Hv).
  assert (He : forall x, end_opt = Some x -> 0 <= x).
  { intros x Hx. destruct Heo as [H|[H _]]; rewrite Hx in H; [injection H; lia|discriminate]. }
  pose proof (validate_valid_size _ _ _ Hf Hv) as Hsz.
  assert (Hlen : match end_opt with Some b2 => b2 + 1 - start
                 | None => Z.of_N (fsize f) - start end = end_ + 1 - start)
    by (destruct Heo as [->|[-> ->]]; lia).
  rewrite (respond_ranged _ _ _ _ _ _ f);
    [| auto using validate_valid_readable | exact Hf | unfold OFF_T_MAX; lia | exact He
     | rewrite Hlen; apply read_succeeds_assured; unfold assured_buffer; lia].
  eexists; split; [reflexivity|].
  unfold range_response. cbv zeta. rewrite Hlen.
  rewrite read_bytes_within by lia.
  replace (start + (end_ + 1 - start)) with (end_ + 1) by lia.
  unfold add_header, response_of_bytes. cbn [status body resp_headers List.concat app].
  rewrite app_nil_r, slice_length.
  repeat split.
  - lia.
  - intros k Hk. apply slice_nth. lia.
  - cbn. replace (Z.of_nat (Z.to_nat (end_ + 1 - start))) with (end_ - start + 1) by lia.
    replace (end_ + 1 - start) with (end_ - start + 1) by lia. discriminate.
  - cbn. replace (Z.of_nat (Z.to_nat (end_ + 1 - start))) with (end_ - start + 1) by lia.
    replace (end_ + 1 - start) with (end_ - start + 1) by lia. repeat constructor.
  - cbn. repeat f_equal. lia.
Qed.

(** ** The full-file branch *)

Lemma gen_chunks_concat (e : env) (f : file) (cs : Z) (k : nat) (pos : Z) :
  0 < cs -> read_succeeds e cs = true ->
  0 <= pos <= Z.of_N (fsize f) -> (Z.to_nat (Z.of_N (fsize f) - pos) < k)%nat ->
  List.concat (gen_chunks e k f pos cs) = slice f pos (Z.of_N (fsize f)).
Proof.
  revert pos; induction k as [|k IH]; intros pos Hcs Hok Hpos Hk; [lia|].
  cbn [gen_chunks].
  assert (Hr : file_read e f pos cs = Some (slice f pos (Z.min (pos + cs) (Z.of_N (fsize f))))).
  { unfold file_read, read_bytes. rewrite Hok. destruct (Z.eqb_spec cs (-1)); [lia|reflexivity]. }
  rewrite Hr.
  destruct (slice f pos (Z.min (pos + cs) (Z.of_N (fsize f)))) as [|b bs] eqn:Hd.
  - apply (f_equal (@List.length _)) in Hd. rewrite slice_length in Hd. cbn in Hd.
    rewrite slice_empty by lia. reflexivity.
  - set (m := Z.min (pos + cs) (Z.of_N (fsize f))) in *.
    assert (Hlen : Z.of_nat (List.length (b :: bs)) = m - pos).
    { rewrite <- Hd, slice_length. apply (f_equal (@List.length _)) in Hd.
      rewrite slice_length in Hd. cbn in Hd. lia. }
    rewrite Hlen. cbn [List.concat]. rewrite <- Hd.
    replace (pos + (m - pos)) with m by lia.
    assert (Hm : pos < m).
    { apply (f_equal (@List.length _)) in Hd. rewrite slice_length in Hd. cbn in Hd. lia. }
    rewrite IH by (assumption || lia). rewrite <- slice_split by lia. reflexivity.
Qed.

Lemma generate_concat (e : env) (f : file) (cs : Z) :
  0 < cs -> read_succeeds e cs = true ->
  List.concat (generate e f cs) = slice f 0 (Z.of_N (fsize f)).
Proof. intros Hcs Hok. unfold generate. apply gen_chunks_concat; auto; lia. Qed.

(** C5: for an existing asset of size [S] that passes validation and a
    request without [Range], [stream] answers 200, its chunks concatenate
    to the whole file ([S] bytes), [Content-Length] is [S] and
    [Accept-Ranges] is [bytes]. *)
Theorem stream_full_file (e : env) (fn : string) (f : file) :
  fs e (stream_file_path e fn) = Some f ->
  dict_get (validate_video_file e (stream_file_path e fn)) "valid" = Some (VBool true) ->
  exists r, stream e fn None = Respond r
  /\ status r = 200
  /\ List.concat (body r) = slice f 0 (Z.of_N (fsize f))
  /\ Z.of_nat (List.length (List.concat (body r))) = Z.of_N (fsize f)
  /\ header_is "Content-Length" (py_str_int (Z.of_N (fsize f))) (resp_headers r)
  /\ header_is "Accept-Ranges" "bytes" (resp_headers r).
Proof.
  intros Hf Hv. unfold stream. rewrite (stream_with_valid _ _ _ _ f Hf Hv).
  unfold respond. rewrite (validate_valid_readable _ _ Hv), Hf, String.eqb_refl. cbn [negb].
  eexists; split; [reflexivity|].
  cbn [status body resp_headers response_of_iter].
  rewrite generate_concat
    by (try apply read_succeeds_assured; unfold stream_chunk_size, assured_buffer; simpl; lia).
  rewrite slice_length. repeat split.
  - lia.
  - cbn. discriminate.
  - cbn. repeat constructor.
  - cbn. discriminate.
  - cbn. repeat constructor.
Qed.

(** ** Content type *)

Lemma respond_content_type (e : env) (fp cp sf : string) (mt : pyval) (v : dict)
    (rh : option string) (r : response) :
  respond e fp cp sf mt v rh = Respond r -> header_values "Content-Type" (resp_headers r) = ["video/mp4"].
Proof.
  unfold respond. cbv zeta.
  destruct (readable e cp); cbn [negb]; [|discriminate].
  destruct (fs e cp) as [f|]; [|discriminate].
  destruct (match rh with Some rh0 => negb (String.eqb rh0 "") | None => false end).
  - destruct (re_search _) as [[g1 g2]|]; [|discriminate].
    destruct (_ || _); [discriminate|]. destruct (negb (seek_ok _)); [discriminate|].
    destruct (file_read _ _ _ _); [|discriminate].
    intros H; injection H as <-. reflexivity.
  - destruct (negb (String.eqb cp fp)); intros H; injection H as <-; reflexivity.
Qed.

(** C3, as amended: every 200 or 206 response of [stream] carries
    [Content-Type: video/mp4], whatever the converter returns. *)
Theorem stream_content_type_always_mp4 (conv : string -> string) (e : env) (fn : string) (rh : option string)
    (r : response) :
  stream_with conv e fn rh = Respond r ->
  header_values "Content-Type" (resp_headers r) = ["video/mp4"].
Proof.
  unfold stream_with. cbv zeta.
  destruct (fs e (stream_file_path e fn)); [|discriminate].
  destruct (dict_get _ "valid") as [valid|]; [|discriminate].
  destruct (negb (truthy valid)); [discriminate|].
  apply respond_content_type.
Qed.

(** C3, counterexample: for [movie.mkv] with FFmpeg failing on every
    command, [safe_convert_video] returns the source path, and [stream]
    serves the file with [Content-Type: video/mp4]. *)
Lemma stream_failed_conversion_claims_mp4 :
  safe_convert_video (sample_env 10000 hd_video) sample_path None = sample_path
  /\ exists r, stream (sample_env 10000 hd_video) "movie.mkv" None = Respond r
     /\ header_values "Content-Type" (resp_headers r) = ["video/mp4"].
Proof. split; [reflexivity|]. eexists. split; [vm_compute; reflexivity|]. reflexivity. Qed.

(** ** Conversion is never reached *)

(** C4: no dict returned by [validate_video_file] has a [mime_type] key,
    so [video_validation.get('mime_type', 'video/mp4')] is [video/mp4],
    the converter passed to [stream] is never consulted, and [stream]
    serves the stored file itself. *)
Theorem validate_no_mime_type_conversion_unreachable :
  (forall e p, dict_get (validate_video_file e p) "mime_type" = None)
  /\ (forall e p, dict_get_default (validate_video_file e p) "mime_type" (VStr "video/mp4")
                  = VStr "video/mp4")
  /\ (forall conv e fn rh, stream_with conv e fn rh = stream_with (fun p => p) e fn rh)
  /\ (forall e fn rh, stream e fn rh = stream_with (fun p => p) e fn rh).
Proof.
  assert (H : forall conv e fn rh, stream_with conv e fn rh = stream_with (fun p => p) e fn rh).
  { intros conv e fn rh. unfold stream_with, dict_get_default. cbv zeta.
    rewrite validate_no_mime_type. reflexivity. }
  split; [exact validate_no_mime_type|]. split.
  - intros e p. unfold dict_get_default. now rewrite validate_no_mime_type.
  - split; [exact H|]. intros e fn rh. apply H.
Qed.

(** ** The conversion fallback loop *)

Lemma run_methods_first_raises (fp msg : string) (m : unit -> mresult) (ms : list (unit -> mresult)) :
  m tt = MRaise msg -> run_methods fp (m :: ms) = run_methods fp ms.
Proof. intros H. simpl. now rewrite H. Qed.

Lemma safe_convert_all_converters_fail (e : env) (fp : string) (out : option string) :
  (exists msg, convert_video_to_mp4 e fp out = MRaise msg) ->
  ffmpeg_run e ["ffmpeg"; "-i"; fp; "-c:v"; "libx264"; "-preset"; "medium"; "-crf"; "23";
                "-c:a"; "aac";
                match out with
                | Some o => if String.eqb o "" then fp ++ ".mp4" else o
                | None => fp ++ ".mp4" end] = false ->
  safe_convert_video e fp out = fp.
Proof.
  intros [msg H1] H2. unfold safe_convert_video, conversion_methods. cbn [run_methods].
  rewrite H1. cbv beta. rewrite H2. reflexivity.
Qed.

(** C6, defect: when the first conversion method raises and the second
    ([subprocess.run] with [-preset medium]) succeeds, writing
    [<source>.mp4], [safe_convert_video] returns the source path: the
    successful method's output is discarded because its result is not a
    [str]. *)
Theorem safe_convert_drops_second_method_output :
  convert_video_to_mp4 second_method_env sample_path None = MRaise "Video conversion failed"
  /\ ffmpeg_run second_method_env
       ["ffmpeg"; "-i"; sample_path; "-c:v"; "libx264"; "-preset"; "medium"; "-crf"; "23";
        "-c:a"; "aac"; sample_path ++ ".mp4"] = true
  /\ safe_convert_video second_method_env sample_path None = sample_path
  /\ safe_convert_video second_method_env sample_path None <> sample_path ++ ".mp4".
Proof. vm_compute. repeat split; discriminate. Qed.

(** ** Metadata extraction failure *)

(** C7, counterexample: an existing 1000-byte file whose metadata moviepy
    cannot read is reported invalid. *)
Lemma validate_rejects_unprobeable_file :
  fs (sample_env 1000 unreadable_video) sample_path <> None
  /\ dict_get (validate_video_file (sample_env 1000 unreadable_video) sample_path) "valid"
     = Some (VBool false).
Proof. vm_compute. split; [discriminate|reflexivity]. Qed.

(** C7, as amended: when the file exists, is at most 2 GiB, and opening
    it with moviepy raises, [validate_video_file] reports it invalid with
    reason [Unable to process video: <error>]. *)
Theorem validate_probe_failure_invalid (e : env) (p : string) (f : file) (msg : string) :
  fs e p = Some f -> Z.of_N (fsize f) <= 2 * 1024 * 1024 * 1024 ->
  open_clip e p = ProbeRaises msg ->
  validate_video_file e p = invalid ("Unable to process video: " ++ msg).
Proof.
  intros Hf Hs Hc. unfold validate_video_file. rewrite Hf. cbv zeta.
  destruct (Z.ltb_spec (2 * 1024 * 1024 * 1024) (Z.of_N (fsize f))); [lia|].
  now rewrite Hc.
Qed.

Lemma validate_probe_failure_invalid_witness :
  (fs (sample_env 1000 unreadable_video) sample_path = Some (mkFile 1000 (fun _ => Byte.x00))
   /\ Z.of_N 1000 <= 2 * 1024 * 1024 * 1024
   /\ open_clip (sample_env 1000 unreadable_video) sample_path
      = ProbeRaises "MoviePy error: failed to read the duration of file")
  /\ validate_video_file (sample_env 1000 unreadable_video) sample_path
     = invalid ("Unable to process video: " ++ "MoviePy error: failed to read the duration of file").
Proof.
  split; [split; [reflexivity|split; [lia|reflexivity]]|].
  apply (validate_probe_failure_invalid _ _ (mkFile 1000 (fun _ => Byte.x00))); [reflexivity|simpl; lia|reflexivity].
Defined.

(** ** Missing asset *)

(** C8, counterexample: a request for an absent asset gets a redirect
    (302), not a 404. *)
Lemma stream_missing_asset_not_404 : status_of (stream (sample_env 10000 hd_video) "missing.mp4" None) = 302.
Proof. reflexivity. Qed.

(** C8, as amended: when the requested asset is absent, [stream] flashes
    [Video file not found.] and redirects (302) to the index page. *)
Theorem stream_missing_asset_redirects (conv : string -> string) (e : env) (fn : string) (rh : option string) :
  fs e (stream_file_path e fn) = None ->
  stream_with conv e fn rh = Redirect "/" "danger" "Video file not found."
  /\ status_of (stream_with conv e fn rh) = 302.
Proof. intros H. unfold stream_with. cbv zeta. rewrite H. split; reflexivity. Qed.

Lemma stream_missing_asset_redirects_witness :
  fs (sample_env 10000 hd_video) (stream_file_path (sample_env 10000 hd_video) "missing.mp4") = None
  /\ stream (sample_env 10000 hd_video) "missing.mp4" None
     = Redirect "/" "danger" "Video file not found."
  /\ status_of (stream (sample_env 10000 hd_video) "missing.mp4" None) = 302.
Proof.
  split; [reflexivity|]. apply stream_missing_asset_redirects. reflexivity.
Defined.

(** ** Cleanup of a converted file *)

(** C9: [stream] never serves a converted file. Whatever the converter,
    the validator sets no [mime_type], so [converted_path] is [file_path]
    whenever [respond] is reached; no temporary converted file exists,
    and no response of [stream], ranged or full, carries a close action.
    The cleanup the claim requires of converted files is never called
    for: the claim holds vacuously. *)
Theorem stream_schedules_no_cleanup (conv : string -> string) (e : env) (fn : string)
    (rh : option string) :
  (forall f, fs e (stream_file_path e fn) = Some f ->
     dict_get (validate_video_file e (stream_file_path e fn)) "valid" = Some (VBool true) ->
     stream_with conv e fn rh
     = respond e (stream_file_path e fn) (stream_file_path e fn) (secure_filename e fn)
         (VStr "video/mp4") (validate_video_file e (stream_file_path e fn)) rh)
  /\ (forall r, stream_with conv e fn rh = Respond r -> on_close r = []).
Proof.
  split; [intros f; apply stream_with_valid|].
  intros r. destruct (fs e (stream_file_path e fn)) as [f|] eqn:Hf.
  - destruct (validate_valid_bool e (stream_file_path e fn)) as [[|] Hb].
    + rewrite (stream_with_valid conv e fn rh f Hf Hb). unfold respond.
      destruct (readable e _); cbn [negb]; [|discriminate].
      destruct (fs e _) as [g|]; [|discriminate]. cbv zeta.
      destruct (match rh with Some h => negb (String.eqb h "") | None => false end).
      * destruct (re_search _) as [[g1 g2]|]; [|discriminate].
        destruct (_ || _); [discriminate|]. destruct (negb (seek_ok _)); [discriminate|].
        destruct (file_read _ _ _ _); [|discriminate].
        intros H; injection H as <-. reflexivity.
      * rewrite String.eqb_refl. cbn [negb]. intros H; injection H as <-. reflexivity.
    + unfold stream_with. cbv zeta. rewrite Hf, Hb. discriminate.
  - unfold stream_with. cbv zeta. rewrite Hf. discriminate.
Qed.

(** ** Size, duration and resolution limits *)

Lemma Qltb_true (x y : Q) : (x < y)%Q -> Qltb x y = true.
Proof.
  intros H. unfold Qltb. destruct (Qle_bool y x) eqn:E; [|reflexivity].
  apply Qle_bool_iff in E. exfalso. apply (Qlt_not_le x y H E).
Qed.

(** C10: a file larger than 2 GiB, a video longer than 3 hours, or a
    video narrower than 640 or lower than 360 pixels is reported invalid
    with a reason by [validate_video_file]; [stream] then redirects with
    that reason and [upload] deletes the file and answers 400. *)
Theorem validate_limits_reject (e : env) (fn : string) (f : file) :
  fs e (stream_file_path e fn) = Some f ->
  (2 * 1024 * 1024 * 1024 < Z.of_N (fsize f)
   \/ (exists c, open_clip e (stream_file_path e fn) = ProbeOk c /\ (10800 # 1 < duration c)%Q)
   \/ (exists c, open_clip e (stream_file_path e fn) = ProbeOk c
                 /\ (width c < 640 \/ height c < 360))) ->
  exists reason,
    validate_video_file e (stream_file_path e fn) = invalid reason
    /\ (forall conv rh, stream_with conv e fn rh
                        = Redirect "/" "danger" ("Video processing error: " ++ reason))
    /\ upload_validate e (stream_file_path e fn)
       = UploadRejected (stream_file_path e fn) 400 reason.
Proof.
  intros Hf Hlim.
  assert (Hv : exists reason, validate_video_file e (stream_file_path e fn) = invalid reason).
  { unfold validate_video_file. rewrite Hf. cbv zeta.
    destruct (Z.ltb_spec (2 * 1024 * 1024 * 1024) (Z.of_N (fsize f))); [eexists; reflexivity|].
    destruct Hlim as [Hs|[[c [Hc Hd]]|[c [Hc Hwh]]]]; [lia| |]; rewrite Hc.
    - match goal with
      | |- context [Qltb ?x (duration c)] =>
          replace (Qltb x (duration c)) with true by (symmetry; apply Qltb_true; exact Hd)
      end.
      eexists; reflexivity.
    - destruct (Qltb _ _); [eexists; reflexivity|].
      destruct Hwh as [Hw|Hh].
      + apply Z.ltb_lt in Hw. rewrite Hw. eexists; reflexivity.
      + apply Z.ltb_lt in Hh. rewrite Hh, orb_true_r. eexists; reflexivity. }
  destruct Hv as [reason Hv]. exists reason. split; [exact Hv|]. split.
  - intros conv rh. unfold stream_with. cbv zeta. rewrite Hf, Hv. reflexivity.
  - unfold upload_validate. rewrite Hv. reflexivity.
Qed.

Lemma validate_limits_reject_witness :
  fs large_env (stream_file_path large_env "movie.mkv") = Some (mkFile 2147483649 (fun _ => Byte.x00))
  /\ exists reason,
    validate_video_file large_env (stream_file_path large_env "movie.mkv") = invalid reason
    /\ (forall conv rh, stream_with conv large_env "movie.mkv" rh
                        = Redirect "/" "danger" ("Video processing error: " ++ reason))
    /\ upload_validate large_env (stream_file_path large_env "movie.mkv")
       = UploadRejected (stream_file_path large_env "movie.mkv") 400 reason.
Proof.
  split; [reflexivity|].
  apply (validate_limits_reject large_env "movie.mkv" (mkFile 2147483649 (fun _ => Byte.x00))); [reflexivity|].
  left. simpl. lia.
Defined.

(* ================================================================= *)
(** ** File name extensions *)

Lemma ascii_lower_eqb_dot (c : ascii) : Ascii.eqb (ascii_lower c) "." = Ascii.eqb c ".".
Proof. destruct c as [[] [] [] [] [] [] [] []]; reflexivity. Qed.

Lemma ascii_lower_eqb_slash (c : ascii) : Ascii.eqb "/" (ascii_lower c) = Ascii.eqb "/" c.
Proof. destruct c as [[] [] [] [] [] [] [] []]; reflexivity. Qed.

Lemma ascii_lower_eqb_dot' (c : ascii) : Ascii.eqb "." (ascii_lower c) = Ascii.eqb "." c.
Proof. destruct c as [[] [] [] [] [] [] [] []]; reflexivity. Qed.

Lemma ascii_lower_idem (c : ascii) : ascii_lower (ascii_lower c) = ascii_lower c.
Proof. destruct c as [[] [] [] [] [] [] [] []]; reflexivity. Qed.

Lemma str_lower_idem (s : string) : str_lower (str_lower s) = str_lower s.
Proof. induction s; simpl; [reflexivity|]. now rewrite ascii_lower_idem, IHs. Qed.

Lemma str_lower_length (s : string) : String.length (str_lower s) = String.length s.
Proof. induction s; simpl; auto. Qed.

Lemma str_lower_app (s t : string) : str_lower (s ++ t) = (str_lower s ++ str_lower t)%string.
Proof. induction s; simpl; [reflexivity|]. now rewrite IHs. Qed.

Lemma str_lower_get (n : nat) (s : string) :
  String.get n (str_lower s) = option_map ascii_lower (String.get n s).
Proof. revert n; induction s; intros [|n]; simpl; auto. Qed.

Lemma str_lower_substring (n m : nat) (s : string) :
  substring n m (str_lower s) = str_lower (substring n m s).
Proof.
  revert n m; induction s; intros [|n] [|m]; simpl; auto; now rewrite IHs.
Qed.

Lemma str_lower_contains_dot (s : string) : str_contains "." (str_lower s) = str_contains "." s.
Proof. induction s; cbn [str_contains str_lower]; [reflexivity|]. now rewrite ascii_lower_eqb_dot', IHs. Qed.

Lemma str_lower_rfind (c : ascii) (s : string) :
  (forall d, Ascii.eqb c (ascii_lower d) = Ascii.eqb c d) ->
  rfind c (str_lower s) = rfind c s.
Proof. intros H. induction s; cbn [rfind str_lower]; [reflexivity|]. now rewrite IHs, H. Qed.

Lemma str_lower_rsplit1_dot (s : string) :
  rsplit1 "." (str_lower s)
  = match rsplit1 "." s with Some (a, b) => Some (str_lower a, str_lower b) | None => None end.
Proof.
  induction s as [|d s IH]; cbn [rsplit1 str_lower]; [reflexivity|]. rewrite IH.
  destruct (rsplit1 "." s) as [[a b]|]; [reflexivity|].
  rewrite ascii_lower_eqb_dot'. destruct (Ascii.eqb "." d); reflexivity.
Qed.

Lemma str_lower_splitext_loop (s : string) (i k : nat) :
  splitext_loop (str_lower s) i k = splitext_loop s i k.
Proof.
  revert i; induction k as [|k IH]; intros i; cbn [splitext_loop]; [reflexivity|].
  rewrite str_lower_get. destruct (String.get i s); simpl; [|apply IH].
  rewrite ascii_lower_eqb_dot, IH. reflexivity.
Qed.

Lemma str_lower_splitext (s : string) :
  splitext (str_lower s) = (str_lower (fst (splitext s)), str_lower (snd (splitext s))).
Proof.
  unfold splitext. rewrite !str_lower_rfind by (apply ascii_lower_eqb_slash || apply ascii_lower_eqb_dot').
  destruct (_ <? _); [|reflexivity].
  rewrite str_lower_splitext_loop. destruct (splitext_loop _ _ _); [|reflexivity].
  unfold str_upto, str_from. rewrite !str_lower_substring, str_lower_length. reflexivity.
Qed.

(** X1: both extension checks see the lower-cased name only *)
Theorem extension_checks_ignore_case (filename : string) :
  allowed_file (str_lower filename) = allowed_file filename
  /\ is_convertible_video (str_lower filename) = is_convertible_video filename.
Proof.
  split.
  - unfold allowed_file. rewrite str_lower_contains_dot, str_lower_rsplit1_dot.
    destruct (rsplit1 "." filename) as [[a b]|]; [|reflexivity]. now rewrite str_lower_idem.
  - unfold is_convertible_video. rewrite str_lower_splitext. simpl. now rewrite str_lower_idem.
Qed.

Lemma rsplit1_spec (c : ascii) (s : string) :
  match rsplit1 c s with
  | None => rfind c s = -1 /\ str_contains c s = false
  | Some (a, b) => s = (a ++ String c b)%string /\ rfind c s = Z.of_nat (String.length a)
                   /\ str_contains c b = false
  end.
Proof.
  induction s as [|d s IH]; cbn [rsplit1 rfind str_contains]; [split; reflexivity|].
  destruct (rsplit1 c s) as [[a b]|].
  - destruct IH as [-> [Hr Hb]]. rewrite Hr.
    destruct (Z.leb_spec 0 (Z.of_nat (String.length a))); [|lia].
    split; [reflexivity|]. split; [simpl; lia|exact Hb].
  - destruct IH as [Hr Hc]. rewrite Hr. cbn [Z.leb Z.compare].
    destruct (Ascii.eqb c d) eqn:E.
    + apply Ascii.eqb_eq in E. subst d. split; [reflexivity|]. split; [reflexivity|exact Hc].
    + split; [reflexivity|]. now rewrite Hc.
Qed.

Lemma rfind_ge (c : ascii) (s : string) : -1 <= rfind c s.
Proof.
  induction s as [|d s IH]; cbn [rfind]; [lia|].
  destruct (Z.leb_spec 0 (rfind c s)); [lia|]. destruct (Ascii.eqb c d); lia.
Qed.

Lemma no_char_rsplit1 (c : ascii) (s : string) :
  str_contains c s = false -> rsplit1 c s = None /\ rfind c s = -1.
Proof.
  induction s as [|d s IH]; cbn [rsplit1 rfind str_contains]; [split; reflexivity|].
  intros H. apply orb_false_iff in H as [H1 H2]. destruct (IH H2) as [-> ->].
  rewrite H1. split; reflexivity.
Qed.

Lemma rsplit1_app (c : ascii) (a b : string) :
  str_contains c b = false -> rsplit1 c (a ++ String c b) = Some (a, b).
Proof.
  intros Hb. induction a as [|d a IH]; cbn [rsplit1 append].
  - rewrite (proj1 (no_char_rsplit1 c b Hb)), Ascii.eqb_refl. reflexivity.
  - now rewrite IH.
Qed.

Lemma str_contains_app (c : ascii) (a b : string) : str_contains c (a ++ String c b) = true.
Proof.
  induction a as [|d a IH]; cbn [str_contains append]; [now rewrite Ascii.eqb_refl|].
  now rewrite IH, orb_true_r.
Qed.

Lemma substring_all (t : string) : substring 0 (String.length t) t = t.
Proof. induction t; simpl; congruence. Qed.

Lemma str_length_app (a t : string) :
  String.length (a ++ t) = (String.length a + String.length t)%nat.
Proof. induction a; simpl; auto. Qed.

Lemma str_from_app (a t : string) : str_from (Z.of_nat (String.length a)) (a ++ t) = t.
Proof.
  unfold str_from. rewrite Nat2Z.id, str_length_app.
  replace (String.length a + String.length t - String.length a)%nat with (String.length t) by lia.
  induction a as [|d a IH]; simpl; [apply substring_all|exact IH].
Qed.

(** X2: a name [is_convertible_video] accepts is accepted by [allowed_file] *)
Theorem convertible_implies_allowed (filename : string) :
  is_convertible_video filename = true -> allowed_file filename = true.
Proof.
  unfold is_convertible_video, splitext. cbv zeta.
  destruct (Z.ltb_spec (rfind "/" filename) (rfind "." filename)) as [Hlt|]; [|discriminate].
  destruct (splitext_loop _ _ _); [|discriminate]. cbn [snd]. intros H.
  pose proof (rsplit1_spec "." filename) as Hs. unfold allowed_file.
  destruct (rsplit1 "." filename) as [[a b]|] eqn:Er.
  - destruct Hs as [Hf [Hr _]]. rewrite Hr in H. rewrite Hf in H.
    rewrite str_from_app in H. rewrite Hf, str_contains_app. cbn [andb].
    cbn [str_lower] in H. change (ascii_lower ".") with "."%char in H.
    unfold str_in in *. apply existsb_exists in H as [y [Hy Hyeq]].
    apply String.eqb_eq in Hyeq.
    cbn [In ALLOWED_EXTENSIONS convertible_extensions] in Hy.
    repeat (destruct Hy as [<-|Hy]; [injection Hyeq as Heq; rewrite Heq; reflexivity|]).
    destruct Hy.
  - destruct Hs as [Hr _]. pose proof (rfind_ge "/" filename). lia.
Qed.

(** X3: a dot file (one leading dot) is never convertible, while
    [allowed_file] reads the rest of its name as an extension *)
Theorem dotfile_allowed_not_convertible (b : string) :
  str_contains "." b = false ->
  is_convertible_video (String "." b) = false
  /\ allowed_file (String "." b) = str_in (str_lower b) ALLOWED_EXTENSIONS.
Proof.
  intros Hb. destruct (no_char_rsplit1 "." b Hb) as [Hs Hr]. split.
  - unfold is_convertible_video, splitext. cbn [rfind]. rewrite Hr.
    change (0 <=? -1) with false. rewrite Ascii.eqb_refl. cbv zeta.
    destruct (Z.leb_spec 0 (rfind "/" b)).
    + destruct (Z.ltb_spec (rfind "/" b + 1) 0); [lia|reflexivity].
    + change (Ascii.eqb "/" ".") with false. reflexivity.
  - unfold allowed_file. cbn [str_contains]. rewrite Ascii.eqb_refl. cbn [orb andb rsplit1].
    rewrite Hs, Ascii.eqb_refl. reflexivity.
Qed.

(** X4: [allowed_file] judges the text after the last dot only *)
Theorem allowed_file_last_extension (a b : string) :
  str_contains "." b = false ->
  allowed_file (a ++ String "." b) = str_in (str_lower b) ALLOWED_EXTENSIONS.
Proof.
  intros Hb. unfold allowed_file. rewrite str_contains_app, rsplit1_app by exact Hb.
  reflexivity.
Qed.

(** ** Accounts *)

Lemma rstrip_last (s : string) :
  rstrip s = EmptyString
  \/ exists t c, rstrip s = (t ++ String c EmptyString)%string /\ py_isspace c = false.
Proof.
  induction s as [|c s IH]; cbn [rstrip]; [left; reflexivity|].
  destruct IH as [-> | [t [d [-> Hd]]]].
  - destruct (py_isspace c) eqn:Hc; cbn [String.eqb andb]; [left; reflexivity|].
    right. exists EmptyString, c. split; [reflexivity|exact Hc].
  - replace (String.eqb (t ++ String d EmptyString) EmptyString) with false
      by (destruct t; reflexivity).
    right. exists (String c t), d. split; [reflexivity|exact Hd].
Qed.

Lemma word_then_end_last (t : string) (c : ascii) :
  py_isspace c = false ->
  word_then_end (t ++ String c EmptyString) = all_word_chars (t ++ String c EmptyString).
Proof.
  intros Hc. induction t as [|d t IH]; cbn [append word_then_end all_word_chars].
  - destruct (is_word_char c); [reflexivity|].
    destruct (Ascii.eqb c "010") eqn:E; [|reflexivity].
    apply Ascii.eqb_eq in E. subst c. discriminate.
  - destruct (is_word_char d); [exact IH|].
    replace (String.eqb (t ++ String c EmptyString) EmptyString) with false
      by (destruct t; reflexivity).
    apply andb_false_r.
Qed.

(** After [strip()], the [$] of the username pattern can only match at
    the very end. *)
Lemma username_re_match_stripped (u : string) :
  username_re_match (py_strip u)
  = negb (String.eqb (py_strip u) EmptyString) && all_word_chars (py_strip u).
Proof.
  unfold py_strip. destruct (rstrip_last (lstrip u)) as [-> | [t [c [Ht Hc]]]]; [reflexivity|].
  rewrite Ht. destruct t as [|d t].
  - cbn. destruct (is_word_char c); [reflexivity|].
    destruct (Ascii.eqb c "010") eqn:E; [|reflexivity].
    apply Ascii.eqb_eq in E. subst c. discriminate.
  - cbn [append username_re_match String.eqb negb andb all_word_chars].
    now rewrite word_then_end_last by exact Hc.
Qed.

Lemma register_username_field (u p : string) :
  form_get_default (credentials u p) "username" "" = u.
Proof. reflexivity. Qed.

Lemma register_password_field (u p : string) :
  form_get_default (credentials u p) "password" "" = p.
Proof. reflexivity. Qed.

(** X5: registration reaches the database exactly for a stripped username
    of at least 3 characters from [[a-zA-Z0-9_]] and a password of at
    least 6 characters; otherwise it redirects back with the table
    unchanged *)
Theorem register_validation (bc : hasher) (db : db_session) (users : list user) (u p : string) :
  ((3 <= String.length (py_strip u))%nat /\ (6 <= String.length p)%nat /\ all_word_chars (py_strip u) = true ->
   register_post bc db users (credentials u p) = register_db bc db users (py_strip u) p)
  /\ (~ ((3 <= String.length (py_strip u))%nat /\ (6 <= String.length p)%nat
         /\ all_word_chars (py_strip u) = true) ->
      exists msg, register_post bc db users (credentials u p)
                  = (Redirect register_url flash_default msg, users)).
Proof.
  unfold register_post. rewrite register_username_field, register_password_field.
  pose proof (username_re_match_stripped u) as Hre.
  split.
  - intros [H1 [H2 H3]].
    assert (He : String.eqb (py_strip u) EmptyString = false)
      by (destruct (py_strip u); [simpl in H1; lia|reflexivity]).
    rewrite He, Hre, He, H3.
    destruct (Nat.ltb_spec (String.length (py_strip u)) 3); [lia|].
    destruct (Nat.ltb_spec (String.length p) 6); [lia|]. reflexivity.
  - intros Hn.
    destruct (String.eqb (py_strip u) EmptyString) eqn:E0; [eexists; reflexivity|].
    destruct (Nat.ltb_spec (String.length (py_strip u)) 3); [eexists; reflexivity|].
    destruct (Nat.ltb_spec (String.length p) 6); [eexists; reflexivity|].
    rewrite Hre, ?E0. cbn [negb andb]. destruct (all_word_chars (py_strip u)) eqn:E3; [|eexists; reflexivity].
    exfalso. apply Hn. auto.
Qed.

Lemma find_app_none {A : Type} (f : A -> bool) (l1 l2 : list A) :
  find f l1 = None -> find f (l1 ++ l2) = find f l2.
Proof. induction l1 as [|x l1 IH]; simpl; [auto|]. destruct (f x); [discriminate|exact IH]. Qed.

Lemma find_none_in {A : Type} (f : A -> bool) (l : list A) :
  (forall x, In x l -> f x = false) -> find f l = None.
Proof.
  induction l as [|x l IH]; intros H; simpl; [reflexivity|].
  rewrite (H x (or_introl eq_refl)). apply IH. intros y Hy. apply H. now right.
Qed.

(** X6: [register] stores the stripped username while [login] looks up the
    name as typed: after registering with surrounding spaces, the stripped
    name logs in and the typed one does not *)
Theorem register_strips_login_does_not (bc : hasher) (db : db_session) (users : list user)
    (u p : string) :
  (forall q, check_password_hash bc (generate_password_hash bc q) q = true) ->
  commit_ok db = true ->
  (3 <= String.length (py_strip u))%nat -> (6 <= String.length p)%nat ->
  all_word_chars (py_strip u) = true ->
  (forall x, In x users -> user_username x <> py_strip u /\ user_username x <> u) ->
  py_strip u <> u ->
  let (o, users') := register_post bc db users (credentials u p) in
  o = Redirect login_url flash_default "Registration successful. Please log in."
  /\ login_post bc users' (credentials (py_strip u) p)
     = (Redirect index_url flash_default "Login successful", Some (next_user_id users))
  /\ login_post bc users' (credentials u p)
     = (Redirect login_url flash_default "Invalid username or password", None).
Proof.
  intros Hh Hc H1 H2 H3 Hus Hs.
  rewrite (proj1 (register_validation bc db users u p)) by auto.
  unfold register_db.
  rewrite find_none_in
    by (intros x Hx; apply String.eqb_neq; exact (proj1 (Hus x Hx))).
  rewrite Hc. split; [reflexivity|].
  assert (Hp : opt_truthy (Some p) = true)
    by (unfold opt_truthy; destruct p; [simpl in H2; lia|reflexivity]).
  assert (Hu : opt_truthy (Some (py_strip u)) = true)
    by (unfold opt_truthy; destruct (py_strip u); [simpl in H1; lia|reflexivity]).
  split.
  - unfold login_post. change (form_get (credentials (py_strip u) p) "username") with (Some (py_strip u)).
    change (form_get (credentials (py_strip u) p) "password") with (Some p).
    rewrite Hu, Hp. cbn [negb orb opt_str].
    rewrite find_app_none
      by (apply find_none_in; intros x Hx; apply String.eqb_neq; exact (proj1 (Hus x Hx))).
    cbn [find user_username user_password_hash user_id]. rewrite String.eqb_refl. cbn [user_password_hash user_id]. rewrite Hh. reflexivity.
  - unfold login_post. change (form_get (credentials u p) "username") with (Some u).
    change (form_get (credentials u p) "password") with (Some p).
    assert (Hu' : opt_truthy (Some u) = true).
    { unfold opt_truthy. destruct u; [|reflexivity]. exfalso. apply Hs. reflexivity. }
    rewrite Hu', Hp. cbn [negb orb opt_str].
    rewrite find_app_none
      by (apply find_none_in; intros x Hx; apply String.eqb_neq; exact (proj2 (Hus x Hx))).
    cbn [find user_username]. 
    replace (String.eqb (py_strip u) u) with false by (symmetry; apply String.eqb_neq; exact Hs).
    reflexivity.
Qed.

(** X7: [register] keeps usernames unique *)
Theorem register_keeps_usernames_unique (bc : hasher) (db : db_session) (users : list user) (f : form) :
  NoDup (map user_username users) ->
  NoDup (map user_username (snd (register_post bc db users f))).
Proof.
  intros Hnd. unfold register_post. cbv zeta.
  repeat (match goal with |- context [if ?b then _ else _] => destruct b; [exact Hnd|] end).
  unfold register_db.
  destruct (find _ users) eqn:Ef; [exact Hnd|].
  destruct (commit_ok db); [|exact Hnd]. cbn [snd]. rewrite map_app. cbn [map user_username].
  apply NoDup_app; [exact Hnd|constructor; [intros []|constructor]|].
  intros x Hx [<-|[]]. apply in_map_iff in Hx as [y [Hy Hin]].
  pose proof (find_none _ _ Ef y Hin) as Hne. cbn beta in Hne.
  rewrite Hy, String.eqb_refl in Hne. discriminate.
Qed.

(** ** Deleting a movie *)

Lemma find_movie_id (ms : list movie) (m : movie) :
  NoDup (map movie_id ms) -> In m ms -> find (fun x => movie_id x =? movie_id m) ms = Some m.
Proof.
  induction ms as [|x ms IH]; intros Hnd Hin; [destruct Hin|].
  inversion Hnd as [|? ? Hx Hnd']; subst. cbn [find].
  destruct Hin as [<-|Hin]; [now rewrite Z.eqb_refl|].
  destruct (Z.eqb_spec (movie_id x) (movie_id m)) as [He|]; [|auto].
  exfalso. apply Hx. rewrite He. now apply in_map.
Qed.

Lemma remove_if_exists_removes (rm : string -> bool) (p : string) (fs fs' : list string) :
  remove_if_exists rm p fs = Some fs' -> ~ In p fs' /\ (forall x, In x fs' -> In x fs).
Proof.
  unfold remove_if_exists. destruct (existsb (String.eqb p) fs) eqn:E.
  - destruct (rm p); [|discriminate]. intros H; injection H as <-. split.
    + intros Hin. apply filter_In in Hin as [_ H]. now rewrite String.eqb_refl in H.
    + intros x Hx. now apply filter_In in Hx as [Hx _].
  - intros H; injection H as <-. split; [|auto].
    intros Hin. assert (existsb (String.eqb p) fs = true) by (apply existsb_exists; exists p;
      split; [exact Hin|apply String.eqb_refl]). congruence.
Qed.

(** X8: deleting an id that is not in the table flashes a generic error
    and redirects (302), with table and files unchanged: the [NotFound]
    of [get_or_404] is caught, no 404 is sent *)
Theorem delete_movie_missing_id (uf tf : string) (rm : string -> bool) (db : db_session)
    (st : store) (uid mid : Z) :
  (forall m, In m (movies st) -> movie_id m <> mid) ->
  delete_movie uf tf rm db st uid mid
  = (Redirect index_url "danger" "An unexpected error occurred.", st)
  /\ status_of (fst (delete_movie uf tf rm db st uid mid)) = 302.
Proof.
  intros H. unfold delete_movie.
  rewrite find_none_in by (intros x Hx; apply Z.eqb_neq; exact (H x Hx)). split; reflexivity.
Qed.

(** X9: another user's movie is neither deleted nor touched on disk *)
Theorem delete_movie_other_owner (uf tf : string) (rm : string -> bool) (db : db_session)
    (st : store) (uid : Z) (m : movie) :
  NoDup (map movie_id (movies st)) -> In m (movies st) -> movie_user_id m <> uid ->
  delete_movie uf tf rm db st uid (movie_id m)
  = (Redirect index_url "danger" "You are not authorized to delete this movie.", st).
Proof.
  intros Hnd Hin Hu. unfold delete_movie. rewrite find_movie_id by assumption.
  replace (movie_user_id m =? uid) with false by (symmetry; apply Z.eqb_neq; exact Hu).
  reflexivity.
Qed.

(** X10: when the commit fails after the video file was removed, the row
    stays in the table while its file is gone *)
Theorem delete_movie_failure_keeps_row (uf tf : string) (rm : string -> bool) (db : db_session)
    (st : store) (m : movie) :
  NoDup (map movie_id (movies st)) -> In m (movies st) ->
  In (path_join uf (movie_filename m)) (files st) -> rm (path_join uf (movie_filename m)) = true ->
  commit_ok db = false ->
  let (o, st') := delete_movie uf tf rm db st (movie_user_id m) (movie_id m) in
  o = Redirect index_url "danger" "Failed to delete movie. Please try again."
  /\ movies st' = movies st /\ In m (movies st')
  /\ ~ In (path_join uf (movie_filename m)) (files st').
Proof.
  intros Hnd Hin Hf Hrm Hc. unfold delete_movie. rewrite find_movie_id by assumption.
  rewrite Z.eqb_refl. cbn [negb]. cbv zeta.
  destruct (remove_if_exists rm _ (files st)) as [fs1|] eqn:E1.
  2:{ unfold remove_if_exists in E1. rewrite Hrm in E1.
      replace (existsb _ (files st)) with true in E1 by (symmetry; apply existsb_exists;
        eexists; split; [exact Hf|apply String.eqb_refl]). discriminate. }
  destruct (remove_if_exists_removes _ _ _ _ E1) as [Hn1 _].
  assert (Hth : forall fs2, match movie_thumbnail m with
                 | Some t => if String.eqb t EmptyString then Some fs1
                             else remove_if_exists rm (path_join tf t) fs1
                 | None => Some fs1 end = Some fs2 -> forall x, In x fs2 -> In x fs1).
  { intros fs2. destruct (movie_thumbnail m) as [t|]; [destruct (String.eqb t EmptyString)|];
    [intros H; injection H as <-; auto| |intros H; injection H as <-; auto].
    intros H. exact (proj2 (remove_if_exists_removes _ _ _ _ H)). }
  destruct (match movie_thumbnail m with
            | Some t => if String.eqb t EmptyString then Some fs1
                        else remove_if_exists rm (path_join tf t) fs1
            | None => Some fs1 end) as [fs2|] eqn:E2.
  - rewrite Hc. cbn [movies files]. repeat split; [exact Hin|].
    intros Hp. apply Hn1. exact (Hth fs2 eq_refl _ Hp).
  - cbn [movies files]. repeat split; [exact Hin|exact Hn1].
Qed.

(** X11: a successful delete by the owner removes the row, the video file
    and the thumbnail file, and keeps every other row *)
Theorem delete_movie_success (uf tf : string) (rm : string -> bool) (db : db_session)
    (st : store) (m : movie) :
  NoDup (map movie_id (movies st)) -> In m (movies st) ->
  (forall p, rm p = true) -> commit_ok db = true ->
  let (o, st') := delete_movie uf tf rm db st (movie_user_id m) (movie_id m) in
  o = Redirect index_url "success" "Movie deleted successfully!"
  /\ (forall x, In x (movies st') <-> In x (movies st) /\ movie_id x <> movie_id m)
  /\ ~ In (path_join uf (movie_filename m)) (files st')
  /\ (forall t, movie_thumbnail m = Some t -> t <> EmptyString -> ~ In (path_join tf t) (files st')).
Proof.
  intros Hnd Hin Hrm Hc. unfold delete_movie. rewrite find_movie_id by assumption.
  rewrite Z.eqb_refl. cbn [negb]. cbv zeta.
  assert (Hr : forall p fs, exists fs', remove_if_exists rm p fs = Some fs').
  { intros p fs. unfold remove_if_exists. rewrite Hrm. destruct (existsb _ _); eexists; reflexivity. }
  assert (Hm : forall x, In x (filter (fun x => negb (movie_id x =? movie_id m)) (movies st))
                         <-> In x (movies st) /\ movie_id x <> movie_id m).
  { intros x. rewrite filter_In, negb_true_iff, Z.eqb_neq. reflexivity. }
  destruct (Hr (path_join uf (movie_filename m)) (files st)) as [fs1 E1]. rewrite E1.
  destruct (remove_if_exists_removes _ _ _ _ E1) as [Hn1 _].
  destruct (movie_thumbnail m) as [t|] eqn:Et.
  - destruct (String.eqb t EmptyString) eqn:Ee.
    + rewrite Hc. split; [reflexivity|]. split; [exact Hm|]. split; [exact Hn1|].
      intros t' Ht' Hne. injection Ht' as <-. apply String.eqb_eq in Ee. contradiction.
    + destruct (Hr (path_join tf t) fs1) as [fs2 E2]. rewrite E2, Hc.
      destruct (remove_if_exists_removes _ _ _ _ E2) as [Hn2 Hs2].
      split; [reflexivity|]. split; [exact Hm|]. split.
      * intros Hp. exact (Hn1 (Hs2 _ Hp)).
      * intros t' Ht' _. injection Ht' as <-. exact Hn2.
  - rewrite Hc. split; [reflexivity|]. split; [exact Hm|]. split; [exact Hn1|].
    intros t' Ht'. discriminate.
Qed.

(** ** Start-up configuration *)

Lemma getenv_unsetenv (o : os_env) (k k' : string) :
  getenv (unsetenv o k) k' = if String.eqb k' k then None else getenv o k'.
Proof. reflexivity. Qed.

(** X12: an empty [DATABASE_URL] is treated as unset *)
Theorem database_url_empty_is_unset (o : os_env) :
  getenv o "DATABASE_URL" = Some EmptyString ->
  get_database_uri o = get_database_uri (unsetenv o "DATABASE_URL").
Proof.
  intros H. unfold get_database_uri. rewrite !getenv_unsetenv. cbv [String.eqb Ascii.eqb Bool.eqb].
  rewrite H. reflexivity.
Qed.

(** X13: an empty [AIVEN_DB_NAME] gives an empty database name, while an
    unset one gives [defaultdb] *)
Theorem database_name_empty_not_default (o : os_env) (h pt us pw : string) :
  opt_truthy (getenv o "DATABASE_URL") = false ->
  getenv o "AIVEN_DB_HOST" = Some h -> getenv o "AIVEN_DB_PORT" = Some pt ->
  getenv o "AIVEN_DB_USER" = Some us -> getenv o "AIVEN_DB_PASSWORD" = Some pw ->
  h <> EmptyString -> pt <> EmptyString -> us <> EmptyString -> pw <> EmptyString ->
  getenv o "AIVEN_DB_NAME" = Some EmptyString ->
  get_database_uri o
  = Some ("postgresql://" ++ us ++ ":" ++ pw ++ "@" ++ h ++ ":" ++ pt ++ "/?sslmode=require")
  /\ get_database_uri (unsetenv o "AIVEN_DB_NAME")
     = Some ("postgresql://" ++ us ++ ":" ++ pw ++ "@" ++ h ++ ":" ++ pt
             ++ "/defaultdb?sslmode=require").
Proof.
  intros Hd Hh Hp Hu Hw Hh' Hp' Hu' Hw' Hn.
  assert (T : forall s, s <> EmptyString -> opt_truthy (Some s) = true)
    by (intros [|] Hs; [contradiction|reflexivity]).
  unfold get_database_uri. rewrite !getenv_unsetenv. cbv [String.eqb Ascii.eqb Bool.eqb].
  rewrite Hd, Hh, Hp, Hu, Hw, Hn, !T by assumption.
  split; reflexivity.
Qed.

(** X14: with [DATABASE_URL] unset or empty and one of the four Aiven
    settings unset or empty, the database is the SQLite file
    [instance/app.db] under the application root *)
Theorem database_sqlite_fallback (o : os_env) :
  opt_truthy (getenv o "DATABASE_URL") = false ->
  (opt_truthy (getenv o "AIVEN_DB_HOST") = false \/ opt_truthy (getenv o "AIVEN_DB_PORT") = false
   \/ opt_truthy (getenv o "AIVEN_DB_USER") = false
   \/ opt_truthy (getenv o "AIVEN_DB_PASSWORD") = false) ->
  makedirs_ok o (path_join (root_path o) "instance") = true ->
  get_database_uri o = Some ("sqlite:///" ++ path_join (path_join (root_path o) "instance") "app.db").
Proof.
  intros Hd Hm Hk. unfold get_database_uri. rewrite Hd. cbv zeta.
  replace (opt_truthy (getenv o "AIVEN_DB_HOST") && opt_truthy (getenv o "AIVEN_DB_PORT")
           && opt_truthy (getenv o "AIVEN_DB_USER") && opt_truthy (getenv o "AIVEN_DB_PASSWORD"))
    with false by (destruct Hm as [H|[H|[H|H]]]; rewrite H; now rewrite ?andb_false_r).
  now rewrite Hk.
Qed.

Lemma first_upload_dirs_unwritable (o : os_env) (ds : list string) :
  (forall d, writable o d = false) -> first_upload_dirs o ds = None.
Proof.
  intros Hw. induction ds as [|b ds IH]; cbn [first_upload_dirs]; [reflexivity|].
  destruct (String.eqb b EmptyString); [exact IH|]. rewrite !Hw, !andb_false_r.
  destruct (_ && _); exact IH.
Qed.

(** X15: when no upload directory is writable but directories can be
    created, [configure_upload_folders] still settles on
    [/tmp/movie_uploads], without its writability check *)
Theorem configure_upload_folders_unwritable (o : os_env) :
  (forall d, makedirs_ok o d = true) -> (forall d, writable o d = false) ->
  configure_upload_folders o = Some ("/tmp/movie_uploads/movies", "/tmp/movie_uploads/thumbnails").
Proof.
  intros Hm Hw. unfold configure_upload_folders. rewrite first_upload_dirs_unwritable by exact Hw.
  cbv zeta. rewrite !Hm. reflexivity.
Qed.

(** ** Thumbnails *)

Lemma str_app_assoc (a b c : string) : ((a ++ b) ++ c)%string = (a ++ (b ++ c))%string.
Proof. induction a; simpl; congruence. Qed.

Lemma basename_rsplit (p : string) :
  basename p = match rsplit1 "/" p with Some (_, b) => b | None => p end.
Proof.
  unfold basename. pose proof (rsplit1_spec "/" p) as Hs.
  destruct (rsplit1 "/" p) as [[a b]|].
  - destruct Hs as [Hp [Hr _]]. rewrite Hr, Hp.
    replace (Z.of_nat (String.length a) + 1) with (Z.of_nat (String.length (a ++ "/"))).
    + replace (a ++ String "/" b)%string with ((a ++ "/") ++ b)%string
        by (rewrite str_app_assoc; reflexivity). apply str_from_app.
    + rewrite str_length_app. simpl. lia.
  - destruct Hs as [Hr _]. rewrite Hr. unfold str_from. simpl.
    rewrite Nat.sub_0_r. apply substring_all.
Qed.

Lemma rsplit1_app_noc (c : ascii) (a b : string) :
  str_contains c b = false ->
  rsplit1 c (a ++ b) = match rsplit1 c a with Some (x, y) => Some (x, (y ++ b)%string) | None => None end.
Proof.
  intros Hb. induction a as [|d a IH]; cbn [rsplit1 append].
  - exact (proj1 (no_char_rsplit1 c b Hb)).
  - rewrite IH. destruct (rsplit1 c a) as [[x y]|]; [reflexivity|].
    destruct (Ascii.eqb c d); reflexivity.
Qed.

Lemma rsplit1_ends_slash (a : string) :
  String.eqb (substring (String.length a - 1) 1 a) "/" = true ->
  exists x, rsplit1 "/" a = Some (x, EmptyString).
Proof.
  induction a as [|d a IH]; [discriminate|]. intros H.
  cbn [String.length] in H. rewrite Nat.sub_succ, Nat.sub_0_r in H.
  destruct a as [|d' a'].
  - cbn in H. destruct (Ascii.eqb_spec d "/") as [->|]; [|discriminate].
    exists EmptyString. reflexivity.
  - cbn [String.length substring] in H. rewrite <- (Nat.sub_0_r (String.length a')) in H.
    replace (String.length a' - 0)%nat with (String.length (String d' a') - 1)%nat in H
      by (cbn [String.length]; lia).
    destruct (IH H) as [x Hx]. exists (String d x).
    change (rsplit1 "/" (String d (String d' a'))) with
      (match rsplit1 "/" (String d' a') with
       | Some (a, b) => Some (String d a, b)
       | None => if Ascii.eqb "/" d then Some (EmptyString, String d' a') else None
       end).
    now rewrite Hx.
Qed.

Lemma basename_no_slash (p : string) : str_contains "/" (basename p) = false.
Proof.
  rewrite basename_rsplit. pose proof (rsplit1_spec "/" p) as Hs.
  destruct (rsplit1 "/" p) as [[a b]|]; [exact (proj2 (proj2 Hs))|exact (proj2 Hs)].
Qed.

Lemma basename_path_join (a b : string) :
  str_contains "/" b = false -> basename (path_join a b) = b.
Proof.
  intros Hb. assert (Hbb : basename b = b).
  { rewrite basename_rsplit. now rewrite (proj1 (no_char_rsplit1 "/" b Hb)). }
  unfold path_join. destruct (String.prefix "/" b); [exact Hbb|].
  destruct (String.eqb a EmptyString); [exact Hbb|].
  destruct (String.eqb (substring (String.length a - 1) 1 a) "/") eqn:E.
  - rewrite basename_rsplit, rsplit1_app_noc by exact Hb.
    destruct (rsplit1_ends_slash a E) as [x ->]. reflexivity.
  - rewrite basename_rsplit. change ("/" ++ b)%string with (String "/" b).
    now rewrite rsplit1_app by exact Hb.
Qed.

(** X16: [upload] records the thumbnail's file name with the movie whether
    or not the generated file exists: a missing file is not copied, yet its
    name is stored *)
Theorem upload_thumbnail_name_recorded (o : os_env) (copy_ok : string -> bool) (tp : string) :
  String.prefix "/" tp = true ->
  makedirs_ok o (path_join (path_join (root_path o) "static") "thumbnails") = true ->
  path_exists o tp = false \/ copy_ok tp = true ->
  upload_thumbnail o copy_ok (Some tp) = Some (basename tp).
Proof.
  intros Ha Hm He. unfold upload_thumbnail.
  replace (String.eqb tp EmptyString) with false by (destruct tp; [discriminate|reflexivity]).
  rewrite Ha. cbv zeta. rewrite Hm. cbn [negb].
  rewrite basename_path_join by apply basename_no_slash.
  destruct He as [He|He]; rewrite He; [reflexivity|].
  destruct (path_exists o tp); reflexivity.
Qed.

(** X17: [serve_thumbnail] sends only an existing candidate location, as
    [image/jpeg]; when none exists it raises [NameError] (an error 500)
    instead of sending the default thumbnail *)
Theorem serve_thumbnail_outcomes (o : os_env) (tf : option string) (sec : string -> string)
    (send_ok : string -> bool) (fn : string) :
  (forall p mt, serve_thumbnail o tf sec send_ok fn = SendFile p mt ->
     mt = "image/jpeg" /\ path_exists o p = true /\ In p (thumbnail_locations o tf (sec fn)))
  /\ ((forall p, In p (thumbnail_locations o tf (sec fn)) -> path_exists o p = false) ->
      serve_thumbnail o tf sec send_ok fn = ServeRaises "NameError").
Proof.
  unfold serve_thumbnail. cbv zeta. split.
  - intros p mt. destruct (find (path_exists o) _) as [q|] eqn:E; [|discriminate].
    destruct (negb (opt_truthy (Some q))); [discriminate|].
    destruct (send_ok (opt_str (Some q))); [|discriminate].
    intros H; injection H as <- <-. apply find_some in E as [Hin Hex].
    split; [reflexivity|split; assumption].
  - intros H. rewrite find_none_in by exact H. reflexivity.
Qed.

(* ================================================================= *)
(** ** The stream route, the validator and the converter, further *)

Lemma validate_shape (e : env) (p : string) :
  (exists r, validate_video_file e p = invalid r)
  \/ dict_get (validate_video_file e p) "valid" = Some (VBool true).
Proof. unfold validate_video_file. destruct_ifs; (left; eexists; reflexivity) || (right; reflexivity). Qed.


(** X19: an empty [Range] header is treated as an absent one *)
Theorem stream_empty_range_is_full (conv : string -> string) (e : env) (fn : string) :
  stream_with conv e fn (Some EmptyString) = stream_with conv e fn None.
Proof.
  unfold stream_with. cbv zeta. destruct (fs e _); [|reflexivity].
  destruct (dict_get _ _); [|reflexivity]. destruct (negb _); reflexivity.
Qed.

Lemma re_search_all_digits (d : string) : all_digits d = true -> re_search d = None.
Proof.
  induction d as [|c d IH]; intros H; [reflexivity|].
  rewrite re_search_unfold. unfold match_at. rewrite take_digits_all by exact H.
  cbn [all_digits] in H. apply andb_prop in H as [_ H]. exact (IH H).
Qed.

(** X20: a suffix range [bytes=-N] (the last [N] bytes) on a valid asset is
    not matched by the pattern and ends in the generic error redirect *)
Theorem stream_suffix_range_error (e : env) (fn : string) (f : file) (d : string) :
  fs e (stream_file_path e fn) = Some f ->
  dict_get (validate_video_file e (stream_file_path e fn)) "valid" = Some (VBool true) ->
  all_digits d = true ->
  stream e fn (Some ("bytes=-" ++ d)) = unexpected_error.
Proof.
  intros Hf Hv Hd. unfold stream. rewrite (stream_with_valid _ _ _ _ f Hf Hv).
  unfold respond. rewrite (validate_valid_readable _ _ Hv), Hf. cbv zeta. cbn [negb].
  change (String.eqb ("bytes=-" ++ d) EmptyString) with false. cbn [negb].
  change ("bytes=-" ++ d) with
    (String "b" (String "y" (String "t" (String "e" (String "s" (String "=" (String "-" d))))))).
  do 7 (cbn [re_search]; change (match_at (String _ _)) with (@None (string * string)) at 1; cbv iota).
  rewrite re_search_all_digits by exact Hd. reflexivity.
Qed.

Lemma range_response_headers (f : file) (start : Z) (end_ : option Z) :
  let len := match end_ with Some b2 => b2 + 1 - start | None => Z.of_N (fsize f) - start end in
  header_values "Content-Length" (resp_headers (range_response f start end_))
  = [py_str_int (Z.of_nat (List.length (read_bytes f start len))); py_str_int len]
  /\ header_values "Content-Range" (resp_headers (range_response f start end_))
     = ["bytes " ++ py_str_int start ++ "-" ++ py_str_int (start + len - 1)
        ++ "/" ++ py_str_int (Z.of_N (fsize f))]
  /\ status (range_response f start end_) = 206
  /\ List.concat (body (range_response f start end_)) = read_bytes f start len.
Proof. cbv zeta. unfold range_response. cbn. rewrite app_nil_r. repeat split. Qed.

(** X21: a range whose end lies at or past the end of the file
    ([0 <= start < S <= end]) asks [f.read] for [n = end + 1 - start]
    bytes. When that read returns (always for [n] up to 2 GiB), the answer
    is 206 with the bytes [start..S-1], but with two [Content-Length]
    headers, the real length [S - start] and the requested [n], and
    [Content-Range] naming the requested end; when it raises (an [n] past
    [PY_SSIZE_T_MAX - 33], or a buffer the host cannot allocate), the
    answer is the generic error redirect *)
Theorem stream_range_overlong (e : env) (fn : string) (f : file) (start end_ : Z) :
  fs e (stream_file_path e fn) = Some f ->
  dict_get (validate_video_file e (stream_file_path e fn)) "valid" = Some (VBool true) ->
  0 <= start < Z.of_N (fsize f) -> Z.of_N (fsize f) <= end_ ->
  let n := end_ + 1 - start in
  (read_succeeds e n = true ->
   exists r, stream e fn (Some (range_header_value start (Some end_))) = Respond r
   /\ status r = 206
   /\ List.concat (body r) = slice f start (Z.of_N (fsize f))
   /\ header_values "Content-Length" (resp_headers r)
      = [py_str_int (Z.of_N (fsize f) - start); py_str_int n]
   /\ header_values "Content-Range" (resp_headers r)
      = ["bytes " ++ py_str_int start ++ "-" ++ py_str_int end_
         ++ "/" ++ py_str_int (Z.of_N (fsize f))])
  /\ (read_succeeds e n = false ->
      stream e fn (Some (range_header_value start (Some end_))) = unexpected_error).
Proof.
  intros Hf Hv Hs He. cbv zeta. unfold stream. rewrite (stream_with_valid _ _ _ _ f Hf Hv).
  pose proof (validate_valid_size _ _ _ Hf Hv) as Hsz.
  assert (He' : forall x, Some end_ = Some x -> 0 <= x) by (intros x Hx; injection Hx as <-; lia).
  split.
  - intros Hrd.
    rewrite (respond_ranged _ _ _ _ _ _ f);
      [| auto using validate_valid_readable | exact Hf | unfold OFF_T_MAX; lia | exact He'
       | exact Hrd].
    eexists; split; [reflexivity|].
    destruct (range_response_headers f start (Some end_)) as [H1 [H2 [H3 H4]]]. cbv zeta in *.
    assert (Hr : read_bytes f start (end_ + 1 - start) = slice f start (Z.of_N (fsize f))).
    { unfold read_bytes. destruct (Z.eqb_spec (end_ + 1 - start) (-1)); [lia|]. f_equal. lia. }
    rewrite Hr in H1, H4. rewrite H1, H2, H3, H4, slice_length.
    repeat split; repeat f_equal; lia.
  - intros Hrd.
    apply (respond_ranged_error _ _ _ _ _ _ f); auto using validate_valid_readable; lia.
Qed.

(** X22: a reversed range ([0 <= end < start - 1]) gives a read length
    [end + 1 - start] below [-1]: [f.read] raises [ValueError] and
    [stream] answers with the generic error redirect. Only [start = end + 2]
    (read length [-1], read to the end of the file) with [start <= S] is
    answered 206, with the file from [start] to its end, a [Content-Length]
    of [S - start] followed by [-1], and [Content-Range: bytes start-end/S] *)
Theorem stream_range_reversed (e : env) (fn : string) (f : file) (start end_ : Z) :
  fs e (stream_file_path e fn) = Some f ->
  dict_get (validate_video_file e (stream_file_path e fn)) "valid" = Some (VBool true) ->
  0 <= end_ ->
  (end_ + 2 < start ->
   stream e fn (Some (range_header_value start (Some end_))) = unexpected_error)
  /\ (start = end_ + 2 -> start <= Z.of_N (fsize f) ->
      exists r, stream e fn (Some (range_header_value start (Some end_))) = Respond r
      /\ status r = 206
      /\ List.concat (body r) = slice f start (Z.of_N (fsize f))
      /\ header_values "Content-Length" (resp_headers r)
         = [py_str_int (Z.of_N (fsize f) - start); py_str_int (-1)]
      /\ header_values "Content-Range" (resp_headers r)
         = ["bytes " ++ py_str_int start ++ "-" ++ py_str_int end_
            ++ "/" ++ py_str_int (Z.of_N (fsize f))]).
Proof.
  intros Hf Hv He. unfold stream. rewrite (stream_with_valid _ _ _ _ f Hf Hv).
  pose proof (validate_valid_size _ _ _ Hf Hv) as Hsz.
  assert (He' : forall x, Some end_ = Some x -> 0 <= x) by (intros x Hx; injection Hx as <-; lia).
  split.
  - intros Hlt.
    apply (respond_ranged_error _ _ _ _ _ _ f); auto using validate_valid_readable; [lia|].
    right. apply read_succeeds_below. lia.
  - intros Heq Hs.
    rewrite (respond_ranged _ _ _ _ _ _ f);
      [| auto using validate_valid_readable | exact Hf | unfold OFF_T_MAX; lia | exact He'
       | apply read_succeeds_assured; unfold assured_buffer; lia].
    eexists; split; [reflexivity|].
    destruct (range_response_headers f start (Some end_)) as [H1 [H2 [H3 H4]]]. cbv zeta in *.
    replace (end_ + 1 - start) with (-1) in * by lia.
    assert (Hr : read_bytes f start (-1) = slice f start (Z.of_N (fsize f))) by reflexivity.
    rewrite Hr in H1, H4. rewrite H1, H2, H3, H4, slice_length.
    repeat split; repeat f_equal; lia.
Qed.

Lemma Qltb_false (x y : Q) : Qltb x y = false <-> (y <= x)%Q.
Proof.
  unfold Qltb. rewrite <- Qle_bool_iff. destruct (Qle_bool y x); split; auto; discriminate.
Qed.

(** X23: [validate_video_file] accepts exactly the existing files of at
    most 2 GiB that moviepy opens, lasting at most 3 hours, at least
    640 pixels wide and 360 high *)
Theorem validate_valid_iff (e : env) (p : string) :
  dict_get (validate_video_file e p) "valid" = Some (VBool true)
  <-> exists f c, fs e p = Some f /\ Z.of_N (fsize f) <= 2147483648
      /\ open_clip e p = ProbeOk c /\ (duration c <= 10800 # 1)%Q
      /\ 640 <= width c /\ 360 <= height c.
Proof.
  unfold validate_video_file. split.
  - destruct (fs e p) as [f|]; [|discriminate]. cbv zeta.
    destruct (Z.ltb_spec (2 * 1024 * 1024 * 1024) (Z.of_N (fsize f))); [discriminate|].
    destruct (open_clip e p) as [c|m] eqn:Ho; [|discriminate].
    destruct (Qltb _ _) eqn:Hd; [discriminate|]. apply Qltb_false in Hd.
    destruct (Z.ltb_spec (width c) 640); [discriminate|].
    destruct (Z.ltb_spec (height c) 360); [discriminate|].
    intros _. exists f, c. repeat split; auto; lia.
  - intros [f [c [Hf [Hs [Ho [Hd [Hw Hh]]]]]]]. rewrite Hf. cbv zeta.
    destruct (Z.ltb_spec (2 * 1024 * 1024 * 1024) (Z.of_N (fsize f))); [lia|].
    rewrite Ho.
    replace (Qltb (inject_Z (3 * 60 * 60)) (duration c)) with false
      by (symmetry; apply Qltb_false; exact Hd).
    destruct (Z.ltb_spec (width c) 640); [lia|].
    destruct (Z.ltb_spec (height c) 360); [lia|]. reflexivity.
Qed.

(** X24: the validation step of [upload] never hits the [KeyError] branch;
    it either continues with an accepting validation, or deletes the
    saved file and answers 400 with the validator's reason *)
Theorem upload_validate_outcomes (e : env) (p : string) :
  upload_validate e p <> UploadKeyError
  /\ (forall v, upload_validate e p = UploadContinues v ->
        v = validate_video_file e p /\ dict_get v "valid" = Some (VBool true))
  /\ (forall rm st msg, upload_validate e p = UploadRejected rm st msg ->
        rm = p /\ st = 400 /\ validate_video_file e p = invalid msg).
Proof.
  unfold upload_validate.
  destruct (validate_shape e p) as [[r Hr]|Hv].
  - rewrite Hr. cbn. split; [discriminate|split; [discriminate|]].
    intros rm st msg H. injection H as <- <- <-. auto.
  - rewrite Hv. cbn [truthy negb]. split; [discriminate|split; [|discriminate]].
    intros v H. injection H as <-. auto.
Qed.

(** X25: a file within Flask's [MAX_CONTENT_LENGTH] (1 GiB) never gets the
    validator's ["File too large"] reason: [upload] can never report it *)
Theorem validate_size_limit_unreachable (e : env) (p : string) (f : file) (r : string) :
  fs e p = Some f -> Z.of_N (fsize f) <= app_config_MAX_CONTENT_LENGTH ->
  validate_video_file e p <> invalid ("File too large. Max size is 2GB. Current size: " ++ r).
Proof.
  intros Hf Hs. unfold validate_video_file, app_config_MAX_CONTENT_LENGTH in *. rewrite Hf.
  cbv zeta. destruct (Z.ltb_spec (2 * 1024 * 1024 * 1024) (Z.of_N (fsize f))); [lia|].
  destruct_ifs; unfold invalid; intros Heq; injection Heq; discriminate.
Qed.

(** X26: [safe_convert_video] returns the source path when FFmpeg is
    unavailable, the output of the first FFmpeg command when it succeeds,
    and in every case one of these two paths *)
Theorem safe_convert_result (e : env) (fp : string) (out : option string) :
  let target := match out with Some o => o | None => temp_name e end in
  (ffmpeg_available e = false -> safe_convert_video e fp out = fp)
  /\ (ffmpeg_available e = true ->
      ffmpeg_run e ["ffmpeg"; "-i"; fp; "-c:v"; "libx264"; "-c:a"; "aac";
                    "-loglevel"; "error"; "-y"; target] = true ->
      safe_convert_video e fp out = target)
  /\ (safe_convert_video e fp out = fp \/ safe_convert_video e fp out = target).
Proof.
  cbv zeta. unfold safe_convert_video, conversion_methods, convert_video_to_mp4.
  cbn [run_methods]. split; [|split].
  - intros H. rewrite H. reflexivity.
  - intros H1 H2. rewrite H1. cbn [negb]. cbv zeta. rewrite H2. reflexivity.
  - destruct (ffmpeg_available e); cbn [negb]; [|left; reflexivity]. cbv zeta.
    destruct (ffmpeg_run e _); [right; reflexivity|]. cbv beta.
    destruct (ffmpeg_run e _); left; reflexivity.
Qed.

(** X27: [login] grants a session only for a registered user named exactly
    as typed whose stored hash accepts the non-empty password typed *)
Theorem login_success_sound (bc : hasher) (users : list user) (f : form) (uid : Z) :
  snd (login_post bc users f) = Some uid ->
  fst (login_post bc users f) = Redirect index_url flash_default "Login successful"
  /\ exists u pw, In u users /\ user_id u = uid
     /\ form_get f "username" = Some (user_username u)
     /\ form_get f "password" = Some pw /\ pw <> EmptyString
     /\ check_password_hash bc (user_password_hash u) pw = true.
Proof.
  unfold login_post. cbv zeta.
  destruct (form_get f "username") as [un|] eqn:Hu; [|discriminate].
  destruct (form_get f "password") as [pw|] eqn:Hp; [|cbn [opt_truthy negb]; rewrite orb_true_r; discriminate].
  cbn [opt_truthy opt_str].
  destruct (String.eqb un EmptyString) eqn:Eu; [discriminate|].
  destruct (String.eqb pw EmptyString) eqn:Ep; [discriminate|]. cbn [negb orb].
  destruct (find _ users) as [u|] eqn:Hf; [|discriminate].
  destruct (check_password_hash bc (user_password_hash u) pw) eqn:Hc; [|discriminate].
  intros H. injection H as <-. split; [reflexivity|].
  apply find_some in Hf as [Hin Hn]. apply String.eqb_eq in Hn.
  exists u, pw. repeat split; auto.
  - now rewrite Hn.
  - intros ->. discriminate.
Qed.

Lemma first_upload_dirs_some (o : os_env) (ds : list string) (m t : string) :
  first_upload_dirs o ds = Some (m, t) ->
  exists pre base post, ds = (pre ++ base :: post)%list
  /\ Forall (fun d => usable_upload_base o d = false) pre
  /\ usable_upload_base o base = true
  /\ m = path_join base "movies" /\ t = path_join base "thumbnails".
Proof.
  induction ds as [|b ds IH]; cbn [first_upload_dirs]; [discriminate|].
  assert (Hskip : usable_upload_base o b = false ->
                  first_upload_dirs o ds = Some (m, t) ->
                  exists pre base post, b :: ds = (pre ++ base :: post)%list
                  /\ Forall (fun d => usable_upload_base o d = false) pre
                  /\ usable_upload_base o base = true
                  /\ m = path_join base "movies" /\ t = path_join base "thumbnails").
  { intros Hu H. destruct (IH H) as (pre & base & post & -> & Hpre & Hrest).
    exists (b :: pre), base, post. split; [reflexivity|]. split; [constructor; assumption|].
    exact Hrest. }
  destruct (String.eqb b EmptyString) eqn:Eb.
  - apply Hskip. unfold usable_upload_base. rewrite Eb. reflexivity.
  - cbv zeta.
    destruct (makedirs_ok o (path_join b "movies") && makedirs_ok o (path_join b "thumbnails"))
      eqn:Emk; [|apply Hskip; unfold usable_upload_base; rewrite Eb, Emk; reflexivity].
    destruct (path_exists o (path_join b "movies") && path_exists o (path_join b "thumbnails")
              && writable o (path_join b "movies") && writable o (path_join b "thumbnails"))
      eqn:Eex; [|apply Hskip; unfold usable_upload_base; rewrite Eb, Emk, Eex; reflexivity].
    intros H. injection H as <- <-. exists [], b, ds.
    split; [reflexivity|]. split; [constructor|].
    split; [unfold usable_upload_base; rewrite Eb, Emk, Eex; reflexivity|].
    split; reflexivity.
Qed.

Lemma first_upload_dirs_none (o : os_env) (ds : list string) :
  first_upload_dirs o ds = None -> Forall (fun d => usable_upload_base o d = false) ds.
Proof.
  induction ds as [|b ds IH]; cbn [first_upload_dirs]; [constructor|].
  destruct (String.eqb b EmptyString) eqn:Eb.
  - intros H. constructor; [unfold usable_upload_base; rewrite Eb; reflexivity|exact (IH H)].
  - cbv zeta.
    destruct (makedirs_ok o (path_join b "movies") && makedirs_ok o (path_join b "thumbnails"))
      eqn:Emk.
    + destruct (path_exists o (path_join b "movies") && path_exists o (path_join b "thumbnails")
                && writable o (path_join b "movies") && writable o (path_join b "thumbnails"))
        eqn:Eex; [discriminate|].
      intros H. constructor; [unfold usable_upload_base; rewrite Eb, Emk, Eex; reflexivity|].
      exact (IH H).
    + intros H. constructor; [unfold usable_upload_base; rewrite Eb, Emk; reflexivity|].
      exact (IH H).
Qed.

(** X28: [configure_upload_folders] sets the [movies] and [thumbnails]
    subdirectories of the first candidate base directory that is
    non-empty, whose two subdirectories are created without an exception
    and then exist and are writable; when no candidate qualifies, those of
    [/tmp/movie_uploads] if both are created without an exception; failing
    that, the single directory [/tmp/emergency_uploads] for both *)
Theorem configure_upload_folders_choice (o : os_env) (m t : string) :
  configure_upload_folders o = Some (m, t) ->
  (exists pre base post, potential_base_dirs o = (pre ++ base :: post)%list
     /\ Forall (fun d => usable_upload_base o d = false) pre
     /\ usable_upload_base o base = true
     /\ m = path_join base "movies" /\ t = path_join base "thumbnails")
  \/ (Forall (fun d => usable_upload_base o d = false) (potential_base_dirs o)
      /\ makedirs_ok o "/tmp/movie_uploads/movies" = true
      /\ makedirs_ok o "/tmp/movie_uploads/thumbnails" = true
      /\ m = "/tmp/movie_uploads/movies" /\ t = "/tmp/movie_uploads/thumbnails")
  \/ (Forall (fun d => usable_upload_base o d = false) (potential_base_dirs o)
      /\ makedirs_ok o "/tmp/movie_uploads/movies"
         && makedirs_ok o "/tmp/movie_uploads/thumbnails" = false
      /\ m = "/tmp/emergency_uploads" /\ t = "/tmp/emergency_uploads").
Proof.
  unfold configure_upload_folders.
  destruct (first_upload_dirs o (potential_base_dirs o)) as [[m' t']|] eqn:E.
  - intros H. injection H as <- <-. left. exact (first_upload_dirs_some _ _ _ _ E).
  - apply first_upload_dirs_none in E. cbv zeta.
    change (path_join "/tmp/movie_uploads" "movies") with "/tmp/movie_uploads/movies".
    change (path_join "/tmp/movie_uploads" "thumbnails") with "/tmp/movie_uploads/thumbnails".
    destruct (makedirs_ok o "/tmp/movie_uploads/movies") eqn:E1,
             (makedirs_ok o "/tmp/movie_uploads/thumbnails") eqn:E2; cbn [andb]; cbv iota.
    + intros H. injection H as <- <-. right; left. repeat split; assumption.
    + destruct (makedirs_ok o "/tmp/emergency_uploads"); [|discriminate].
      intros H. injection H as <- <-. right; right. repeat split; assumption.
    + destruct (makedirs_ok o "/tmp/emergency_uploads"); [|discriminate].
      intros H. injection H as <- <-. right; right. repeat split; assumption.
    + destruct (makedirs_ok o "/tmp/emergency_uploads"); [|discriminate].
      intros H. injection H as <- <-. right; right. repeat split; assumption.
Qed.

(** ** The range and full-file theorems at concrete inputs *)


Lemma stream_valid_range_witness :
  exists r, stream (sample_env 10000 hd_video) "movie.mkv"
              (Some (range_header_value 9990 None)) = Respond r
  /\ status r = 206
  /\ List.concat (body r) = slice (mkFile 10000 (fun _ => Byte.x00)) 9990 (9999 + 1)
  /\ Z.of_nat (List.length (List.concat (body r))) = 9999 - 9990 + 1
  /\ (forall k, 0 <= k <= 9999 - 9990 ->
        nth_error (List.concat (body r)) (Z.to_nat k) = Some Byte.x00)
  /\ header_is "Content-Length" (py_str_int (9999 - 9990 + 1)) (resp_headers r)
  /\ header_values "Content-Range" (resp_headers r)
     = ["bytes " ++ py_str_int 9990 ++ "-" ++ py_str_int 9999 ++ "/" ++ py_str_int 10000].
Proof.
  apply (stream_valid_range (sample_env 10000 hd_video) "movie.mkv"
           (mkFile 10000 (fun _ => Byte.x00)) 9990 9999 None).
  - reflexivity.
  - vm_compute. reflexivity.
  - lia.
  - simpl. lia.
  - right. split; [reflexivity|simpl; lia].
Defined.

Lemma stream_content_type_always_mp4_witness :
  exists r, stream_with (fun p => p) (sample_env 16 hd_video) "movie.mkv" None = Respond r
  /\ header_values "Content-Type" (resp_headers r) = ["video/mp4"].
Proof.
  eexists. split.
  - vm_compute. reflexivity.
  - apply (stream_content_type_always_mp4 (fun p => p) (sample_env 16 hd_video) "movie.mkv" None).
    vm_compute. reflexivity.
Defined.

Lemma stream_full_file_witness :
  exists r, stream (sample_env 16 hd_video) "movie.mkv" None = Respond r
  /\ status r = 200
  /\ List.concat (body r) = slice (mkFile 16 (fun _ => Byte.x00)) 0 16
  /\ Z.of_nat (List.length (List.concat (body r))) = 16
  /\ header_is "Content-Length" (py_str_int 16) (resp_headers r)
  /\ header_is "Accept-Ranges" "bytes" (resp_headers r).
Proof.
  apply (stream_full_file (sample_env 16 hd_video) "movie.mkv" (mkFile 16 (fun _ => Byte.x00))).
  - reflexivity.
  - vm_compute. reflexivity.
Defined.

(** ** The further theorems at concrete inputs *)

Lemma convertible_implies_allowed_witness :
  is_convertible_video "Movie.MP4" = true /\ allowed_file "Movie.MP4" = true.
Proof. split; [reflexivity|]. apply convertible_implies_allowed. reflexivity. Defined.

Lemma dotfile_allowed_not_convertible_witness :
  str_contains "." "mp4" = false
  /\ is_convertible_video ".mp4" = false
  /\ allowed_file ".mp4" = str_in (str_lower "mp4") ALLOWED_EXTENSIONS.
Proof. split; [reflexivity|]. apply (dotfile_allowed_not_convertible "mp4"). reflexivity. Defined.

Lemma allowed_file_last_extension_witness :
  str_contains "." "MKV" = false
  /\ allowed_file ("clip.tar" ++ ".MKV") = str_in (str_lower "MKV") ALLOWED_EXTENSIONS.
Proof. split; [reflexivity|]. apply (allowed_file_last_extension "clip.tar" "MKV"). reflexivity. Defined.

Lemma register_strips_login_does_not_witness :
  let (o, users') := register_post plain_hasher db_ok sample_users (credentials " bob " "hunter22") in
  o = Redirect login_url flash_default "Registration successful. Please log in."
  /\ login_post plain_hasher users' (credentials (py_strip " bob ") "hunter22")
     = (Redirect index_url flash_default "Login successful", Some (next_user_id sample_users))
  /\ login_post plain_hasher users' (credentials " bob " "hunter22")
     = (Redirect login_url flash_default "Invalid username or password", None).
Proof.
  apply register_strips_login_does_not.
  - intros q. apply String.eqb_refl.
  - reflexivity.
  - vm_compute. lia.
  - vm_compute. lia.
  - reflexivity.
  - intros x [<-|[]]. split; discriminate.
  - discriminate.
Defined.

Lemma register_keeps_usernames_unique_witness :
  NoDup (map user_username sample_users)
  /\ NoDup (map user_username
              (snd (register_post plain_hasher db_ok sample_users (credentials "bob" "hunter22")))).
Proof.
  assert (H : NoDup (map user_username sample_users)) by (repeat constructor; intros []).
  split; [exact H|]. apply register_keeps_usernames_unique. exact H.
Defined.

Lemma login_success_sound_witness :
  snd (login_post plain_hasher sample_users (credentials "alice" "secret1")) = Some 1
  /\ fst (login_post plain_hasher sample_users (credentials "alice" "secret1"))
     = Redirect index_url flash_default "Login successful".
Proof.
  assert (H : snd (login_post plain_hasher sample_users (credentials "alice" "secret1")) = Some 1)
    by reflexivity.
  split; [exact H|]. exact (proj1 (login_success_sound _ _ _ _ H)).
Defined.

Lemma delete_movie_missing_id_witness :
  delete_movie "uploads" "thumbs" (fun _ => true) db_ok sample_store 1 3
  = (Redirect index_url "danger" "An unexpected error occurred.", sample_store)
  /\ status_of (fst (delete_movie "uploads" "thumbs" (fun _ => true) db_ok sample_store 1 3)) = 302.
Proof. apply delete_movie_missing_id. intros m [<-|[<-|[]]]; discriminate. Defined.

Lemma delete_movie_other_owner_witness :
  delete_movie "uploads" "thumbs" (fun _ => true) db_ok sample_store 2 (movie_id intro_movie)
  = (Redirect index_url "danger" "You are not authorized to delete this movie.", sample_store).
Proof.
  apply delete_movie_other_owner.
  - repeat constructor; cbn; [intros [H|[]]; discriminate|intros []].
  - left; reflexivity.
  - discriminate.
Defined.

Lemma delete_movie_failure_keeps_row_witness :
  let (o, st') := delete_movie "uploads" "thumbs" (fun _ => true) db_down sample_store
                    (movie_user_id intro_movie) (movie_id intro_movie) in
  o = Redirect index_url "danger" "Failed to delete movie. Please try again."
  /\ movies st' = movies sample_store /\ In intro_movie (movies st')
  /\ ~ In (path_join "uploads" (movie_filename intro_movie)) (files st').
Proof.
  apply delete_movie_failure_keeps_row.
  - repeat constructor; cbn; [intros [H|[]]; discriminate|intros []].
  - left; reflexivity.
  - vm_compute. left; reflexivity.
  - reflexivity.
  - reflexivity.
Defined.

Lemma delete_movie_success_witness :
  let (o, st') := delete_movie "uploads" "thumbs" (fun _ => true) db_ok sample_store
                    (movie_user_id intro_movie) (movie_id intro_movie) in
  o = Redirect index_url "success" "Movie deleted successfully!"
  /\ (forall x, In x (movies st') <-> In x (movies sample_store) /\ movie_id x <> movie_id intro_movie)
  /\ ~ In (path_join "uploads" (movie_filename intro_movie)) (files st')
  /\ (forall t, movie_thumbnail intro_movie = Some t -> t <> EmptyString ->
        ~ In (path_join "thumbs" t) (files st')).
Proof.
  apply delete_movie_success.
  - repeat constructor; cbn; [intros [H|[]]; discriminate|intros []].
  - left; reflexivity.
  - reflexivity.
  - reflexivity.
Defined.

Lemma database_url_empty_is_unset_witness :
  get_database_uri (sample_os [("DATABASE_URL", "")] false)
  = get_database_uri (unsetenv (sample_os [("DATABASE_URL", "")] false) "DATABASE_URL").
Proof. apply database_url_empty_is_unset. reflexivity. Defined.

Lemma database_name_empty_not_default_witness :
  get_database_uri (sample_os (aiven_vars "") false)
  = Some ("postgresql://" ++ "avnadmin" ++ ":" ++ "pw" ++ "@" ++ "db.example.com" ++ ":" ++ "25060"
          ++ "/?sslmode=require")
  /\ get_database_uri (unsetenv (sample_os (aiven_vars "") false) "AIVEN_DB_NAME")
     = Some ("postgresql://" ++ "avnadmin" ++ ":" ++ "pw" ++ "@" ++ "db.example.com" ++ ":" ++ "25060"
             ++ "/defaultdb?sslmode=require").
Proof.
  apply (database_name_empty_not_default _ "db.example.com" "25060" "avnadmin" "pw");
    (reflexivity || discriminate).
Defined.

Lemma database_sqlite_fallback_witness :
  get_database_uri (sample_os [] false)
  = Some ("sqlite:///" ++ path_join (path_join "/srv/app" "instance") "app.db").
Proof.
  apply (database_sqlite_fallback (sample_os [] false)).
  - reflexivity.
  - left; reflexivity.
  - reflexivity.
Defined.

Lemma configure_upload_folders_unwritable_witness :
  configure_upload_folders (sample_os [] false)
  = Some ("/tmp/movie_uploads/movies", "/tmp/movie_uploads/thumbnails").
Proof. apply configure_upload_folders_unwritable; intros; reflexivity. Defined.

Lemma configure_upload_folders_choice_witness :
  configure_upload_folders (sample_os [] true)
  = Some ("/opt/render/project/src/static/uploads/movies",
          "/opt/render/project/src/static/uploads/thumbnails")
  /\ ((exists pre base post, potential_base_dirs (sample_os [] true) = (pre ++ base :: post)%list
        /\ Forall (fun d => usable_upload_base (sample_os [] true) d = false) pre
        /\ usable_upload_base (sample_os [] true) base = true
        /\ "/opt/render/project/src/static/uploads/movies" = path_join base "movies"
        /\ "/opt/render/project/src/static/uploads/thumbnails" = path_join base "thumbnails")
      \/ (Forall (fun d => usable_upload_base (sample_os [] true) d = false)
            (potential_base_dirs (sample_os [] true))
          /\ makedirs_ok (sample_os [] true) "/tmp/movie_uploads/movies" = true
          /\ makedirs_ok (sample_os [] true) "/tmp/movie_uploads/thumbnails" = true
          /\ "/opt/render/project/src/static/uploads/movies" = "/tmp/movie_uploads/movies"
          /\ "/opt/render/project/src/static/uploads/thumbnails" = "/tmp/movie_uploads/thumbnails")
      \/ (Forall (fun d => usable_upload_base (sample_os [] true) d = false)
            (potential_base_dirs (sample_os [] true))
          /\ makedirs_ok (sample_os [] true) "/tmp/movie_uploads/movies"
             && makedirs_ok (sample_os [] true) "/tmp/movie_uploads/thumbnails" = false
          /\ "/opt/render/project/src/static/uploads/movies" = "/tmp/emergency_uploads"
          /\ "/opt/render/project/src/static/uploads/thumbnails" = "/tmp/emergency_uploads")).
Proof.
  assert (H : configure_upload_folders (sample_os [] true)
              = Some ("/opt/render/project/src/static/uploads/movies",
                      "/opt/render/project/src/static/uploads/thumbnails")) by reflexivity.
  split; [exact H|]. exact (configure_upload_folders_choice _ _ _ H).
Defined.

Lemma upload_thumbnail_name_recorded_witness :
  upload_thumbnail (sample_os [] false) (fun _ => false) (Some "/tmp/thumb_movie.jpg")
  = Some (basename "/tmp/thumb_movie.jpg").
Proof.
  apply upload_thumbnail_name_recorded.
  - reflexivity.
  - reflexivity.
  - left; reflexivity.
Defined.


Lemma stream_suffix_range_error_witness :
  stream (sample_env 10000 hd_video) "movie.mkv" (Some ("bytes=-" ++ "500")) = unexpected_error.
Proof.
  apply (stream_suffix_range_error _ _ sample_file).
  - reflexivity.
  - vm_compute. reflexivity.
  - reflexivity.
Defined.

Lemma stream_range_overlong_witness :
  (exists r, stream (sample_env 10000 hd_video) "movie.mkv" (Some (range_header_value 9000 (Some 20000)))
             = Respond r
   /\ status r = 206
   /\ List.concat (body r) = slice sample_file 9000 (Z.of_N (fsize sample_file))
   /\ header_values "Content-Length" (resp_headers r)
      = [py_str_int (Z.of_N (fsize sample_file) - 9000); py_str_int (20000 + 1 - 9000)]
   /\ header_values "Content-Range" (resp_headers r)
      = ["bytes " ++ py_str_int 9000 ++ "-" ++ py_str_int 20000
         ++ "/" ++ py_str_int (Z.of_N (fsize sample_file))])
  /\ stream (sample_env 10000 hd_video) "movie.mkv"
       (Some (range_header_value 9000 (Some (2 ^ 40)))) = unexpected_error.
Proof.
  split.
  - destruct (stream_range_overlong (sample_env 10000 hd_video) "movie.mkv" sample_file 9000 20000)
      as [P _].
    + reflexivity.
    + vm_compute. reflexivity.
    + cbn. lia.
    + cbn. lia.
    + apply P. vm_compute. reflexivity.
  - destruct (stream_range_overlong (sample_env 10000 hd_video) "movie.mkv" sample_file 9000 (2 ^ 40))
      as [_ P].
    + reflexivity.
    + vm_compute. reflexivity.
    + cbn. lia.
    + cbn. lia.
    + apply P. vm_compute. reflexivity.
Defined.

Lemma stream_range_reversed_witness :
  stream (sample_env 10000 hd_video) "movie.mkv" (Some (range_header_value 5000 (Some 100)))
  = unexpected_error
  /\ exists r, stream (sample_env 10000 hd_video) "movie.mkv" (Some (range_header_value 102 (Some 100)))
              = Respond r
     /\ status r = 206
     /\ List.concat (body r) = slice sample_file 102 (Z.of_N (fsize sample_file))
     /\ header_values "Content-Length" (resp_headers r)
        = [py_str_int (Z.of_N (fsize sample_file) - 102); py_str_int (-1)]
     /\ header_values "Content-Range" (resp_headers r)
        = ["bytes " ++ py_str_int 102 ++ "-" ++ py_str_int 100
           ++ "/" ++ py_str_int (Z.of_N (fsize sample_file))].
Proof.
  split.
  - destruct (stream_range_reversed (sample_env 10000 hd_video) "movie.mkv" sample_file 5000 100)
      as [P _].
    + reflexivity.
    + vm_compute. reflexivity.
    + lia.
    + apply P. lia.
  - destruct (stream_range_reversed (sample_env 10000 hd_video) "movie.mkv" sample_file 102 100)
      as [_ P].
    + reflexivity.
    + vm_compute. reflexivity.
    + lia.
    + apply P; [lia | cbn; lia].
Defined.

Lemma validate_size_limit_unreachable_witness :
  validate_video_file (sample_env 10000 hd_video) sample_path
  <> invalid ("File too large. Max size is 2GB. Current size: " ++ "0.01 MB").
Proof.
  apply (validate_size_limit_unreachable _ _ sample_file).
  - reflexivity.
  - cbn. lia.
Defined.
